(** * append_change_summary: a shallow embedding and its properties

    The script [append_change_summary.py] gathers the Git changes since a
    stored checkpoint, renders them as a Markdown entry, appends the entry to
    a note and records the new checkpoint.  This file embeds the script in
    Rocq, function by function and under the source's names, and proves the
    properties of the embedding.

    Modelling conventions.
    - A Python [str] is a list of Unicode code points ([pystr]).
    - A value decoded from JSON is a [pyval]; [None] is [PNone].
    - Code that can raise returns a [result]; the exception is kept.
    - The file system is a finite map from normalised paths to nodes; the
      Git executable, the environment variable, the clock and the home
      directory are read-only surroundings of one invocation ([Env]).
    - Built-in conversions whose behaviour is fixed by the Python runtime
      and not by the script (rendering of floats and containers, parsing of
      an integer out of a string, [strftime]) are fields of [Runtime].
    - The platform is POSIX.  [main] is embedded from the parsed arguments
      on; [argparse], directories, failing writes and the interpreter's
      limits (recursion depth, digits of an integer literal) are outside the
      model. *)

From Stdlib Require Import ZArith NArith List Ascii String DecimalString Bool Lia.
From stdpp Require Import base option list gmap.
Import ListNotations.

Local Open Scope N_scope.
Local Open Scope list_scope.

(** ** Python strings *)

Module PyStr.

Definition pystr := list N.

(** A source literal: the code points of an ASCII string. *)
Fixpoint lit (s : string) : pystr :=
  match s with
  | EmptyString => []
  | String a s' => N_of_ascii a :: lit s'
  end.

Definition LF : N := 10.
Definition CR : N := 13.
Definition TAB : N := 9.

(** [str.isspace] on one character: the code points CPython classifies as
    whitespace. *)
Definition isspace (c : N) : bool :=
  ((9 <=? c) && (c <=? 13)) || ((28 <=? c) && (c <=? 32))
  || (c =? 133) || (c =? 160) || (c =? 5760)
  || ((8192 <=? c) && (c <=? 8202))
  || (c =? 8232) || (c =? 8233) || (c =? 8239) || (c =? 8287) || (c =? 12288).

Definition is_empty {A} (l : list A) : bool :=
  match l with [] => true | _ => false end.

(** [s.lstrip()], [s.rstrip()], [s.strip()]. *)
Fixpoint lstrip (s : pystr) : pystr :=
  match s with
  | [] => []
  | c :: s' => if isspace c then lstrip s' else s
  end.

Fixpoint rstrip (s : pystr) : pystr :=
  match s with
  | [] => []
  | c :: s' =>
      let r := rstrip s' in
      if isspace c && is_empty r then [] else c :: r
  end.

Definition strip (s : pystr) : pystr := lstrip (rstrip s).

(** Line boundaries of [str.splitlines]. *)
Definition is_linebreak (c : N) : bool :=
  ((10 <=? c) && (c <=? 13)) || ((28 <=? c) && (c <=? 30))
  || (c =? 133) || (c =? 8232) || (c =? 8233).

(** [s.splitlines()]: [cur] is the current line, reversed. *)
Fixpoint splitlines_from (cur : pystr) (s : pystr) : list pystr :=
  match s with
  | [] => if is_empty cur then [] else [rev cur]
  | c :: s' =>
      if is_linebreak c then
        rev cur ::
          match s' with
          | d :: s'' =>
              if (c =? CR) && (d =? LF) then splitlines_from [] s''
              else splitlines_from [] s'
          | [] => splitlines_from [] s'
          end
      else splitlines_from (c :: cur) s'
  end.

Definition splitlines (s : pystr) : list pystr := splitlines_from [] s.

(** [s.split(sep)] for a one-character separator; never returns []. *)
Fixpoint split_on (sep : N) (s : pystr) : list pystr :=
  match s with
  | [] => [[]]
  | c :: s' =>
      match split_on sep s' with
      | [] => [[]]
      | p :: ps => if c =? sep then [] :: p :: ps else (c :: p) :: ps
      end
  end.

(** [s.startswith(p)] and [s.endswith(p)]. *)
Fixpoint startswith (p s : pystr) : bool :=
  match p, s with
  | [], _ => true
  | a :: p', b :: s' => (a =? b) && startswith p' s'
  | _ :: _, [] => false
  end.

Definition endswith (p s : pystr) : bool := startswith (rev p) (rev s).

(** [sep.join(parts)]. *)
Fixpoint join (sep : pystr) (parts : list pystr) : pystr :=
  match parts with
  | [] => []
  | [p] => p
  | p :: ps => p ++ sep ++ join sep ps
  end.

(** [l[:k]] for any integer [k]: a negative bound counts from the end. *)
Definition slice_to {A} (l : list A) (k : Z) : list A :=
  if (0 <=? k)%Z then take (Z.to_nat k) l
  else take (length l - Z.to_nat (- k)) l.

(** [str(n)] for an integer. *)
Definition str_of_Z (z : Z) : pystr := lit (NilZero.string_of_int (Z.to_int z)).

(** Python truthiness of a string and of a list. *)
Definition nonempty {A} (l : list A) : bool := negb (is_empty l).

End PyStr.
Import PyStr.


(** ** Exceptions and results *)

Inductive exn :=
| RuntimeError (msg : pystr)
| FileNotFoundError
| OSError (why : pystr)
| UnicodeDecodeError
| JSONDecodeError
| RecursionError
| AttributeError
| TypeError
| ValueError
| OverflowError.

Inductive result (A : Type) :=
| Ok (a : A)
| Raise (e : exn).
Arguments Ok {A} a.
Arguments Raise {A} e.

Definition bind {A B} (c : result A) (k : A -> result B) : result B :=
  match c with
  | Ok a => k a
  | Raise e => Raise e
  end.

Notation "'do' x <- c ; k" := (bind c (fun x => k))
  (at level 10, x name, c at level 100, k at level 200, only parsing).
Notation "'do' ' p <- c ; k" := (bind c (fun x => let p := x in k))
  (at level 10, p pattern, c at level 100, k at level 200, only parsing).

(** ** Python values as [json.loads] produces them *)

#[warnings="-register-all"]
Inductive pyval :=
| PNone
| PBool (b : bool)
| PInt (z : Z)
| PFloat (raw : pystr)
| PStr (s : pystr)
| PList (items : list pyval)
| PDict (items : list (pystr * pyval)).

(** Conversions that the Python runtime fixes. [float_truthy], [float_to_int]
    and [str_other] act on the text of a float literal or on a value that is
    neither a string, an integer nor a boolean. *)
Record datetime := { dt_year : N; dt_month : N; dt_day : N; dt_hour : N; dt_minute : N }.

Record Runtime := {
  float_truthy : pystr -> bool;
  float_to_int : pystr -> result Z;
  int_of_str : pystr -> result Z;
  str_other : pyval -> pystr;
  strftime_minutes : datetime -> pystr
}.

Module Json.

Definition eqb_pystr (a b : pystr) : bool := bool_decide (a = b).

(** [d[k] = v] on an insertion-ordered dict. *)
Fixpoint dict_set (d : list (pystr * pyval)) (k : pystr) (v : pyval) :=
  match d with
  | [] => [(k, v)]
  | (k', v') :: d' =>
      if eqb_pystr k' k then (k', v) :: d' else (k', v') :: dict_set d' k v
  end.

Fixpoint dict_lookup (d : list (pystr * pyval)) (k : pystr) : option pyval :=
  match d with
  | [] => None
  | (k', v') :: d' => if eqb_pystr k' k then Some v' else dict_lookup d' k
  end.

(** *** Decoder (the scanner of [json.decoder], strict mode) *)

Definition is_json_ws (c : N) : bool :=
  (c =? 32) || (c =? 9) || (c =? 10) || (c =? 13).

Fixpoint skip_ws (s : pystr) : pystr :=
  match s with
  | c :: s' => if is_json_ws c then skip_ws s' else s
  | [] => []
  end.

Definition hexval (c : N) : option N :=
  if (48 <=? c) && (c <=? 57) then Some (c - 48)
  else if (97 <=? c) && (c <=? 102) then Some (c - 87)
  else if (65 <=? c) && (c <=? 70) then Some (c - 55)
  else None.

Definition hex4 (s : pystr) : option (N * pystr) :=
  match s with
  | a :: b :: c :: d :: s' =>
      match hexval a, hexval b, hexval c, hexval d with
      | Some x, Some y, Some z, Some w => Some (x * 4096 + y * 256 + z * 16 + w, s')
      | _, _, _, _ => None
      end
  | _ => None
  end.

Definition is_high_surrogate (c : N) : bool := (55296 <=? c) && (c <=? 56319).
Definition is_low_surrogate (c : N) : bool := (56320 <=? c) && (c <=? 57343).
Definition join_surrogates (hi lo : N) : N :=
  65536 + ((hi - 55296) * 1024 + (lo - 56320)).

(** The character a backslash escape other than [\u] stands for. *)
Definition unescape (e : N) : option N :=
  if e =? 34 then Some 34 else if e =? 92 then Some 92
  else if e =? 47 then Some 47 else if e =? 98 then Some 8
  else if e =? 102 then Some 12 else if e =? 110 then Some 10
  else if e =? 114 then Some 13 else if e =? 116 then Some 9
  else None.

(** [scanstring]: [s] is the text after the opening quote; returns the
    decoded string and the text after the closing quote. *)
Fixpoint scanstring (fuel : nat) (s acc : pystr) : result (pystr * pystr) :=
  match fuel with
  | O => Raise RecursionError
  | S fuel' =>
      match s with
      | [] => Raise JSONDecodeError
      | c :: s1 =>
          if c =? 34 then Ok (rev acc, s1)
          else if c =? 92 then
            match s1 with
            | [] => Raise JSONDecodeError
            | e :: s2 =>
                if e =? 117 then
                  match hex4 s2 with
                  | None => Raise JSONDecodeError
                  | Some (u, s3) =>
                      if is_high_surrogate u && startswith [92; 117] s3 then
                        match hex4 (drop 2 s3) with
                        | None => Raise JSONDecodeError
                        | Some (u2, s5) =>
                            if is_low_surrogate u2
                            then scanstring fuel' s5 (join_surrogates u u2 :: acc)
                            else scanstring fuel' s3 (u :: acc)
                        end
                      else scanstring fuel' s3 (u :: acc)
                  end
                else
                  match unescape e with
                  | Some c' => scanstring fuel' s2 (c' :: acc)
                  | None => Raise JSONDecodeError
                  end
            end
          else if c <=? 31 then Raise JSONDecodeError
          else scanstring fuel' s1 (c :: acc)
      end
  end.

Definition is_digit (c : N) : bool := (48 <=? c) && (c <=? 57).

Fixpoint take_digits (s : pystr) : pystr * pystr :=
  match s with
  | c :: s' =>
      if is_digit c then let (ds, r) := take_digits s' in (c :: ds, r) else ([], s)
  | [] => ([], [])
  end.

Definition digits_value (ds : pystr) : Z :=
  fold_left (fun acc d => (acc * 10 + Z.of_N (d - 48))%Z) ds 0%Z.

(** The number grammar: an optional minus sign; then a single zero, or a
    digit from 1 to 9 followed by any digits; then optionally a dot with one
    or more digits; then optionally an exponent (e or E, an optional sign, one
    or more digits).  An integer literal gives [PInt], anything with a
    fraction or an exponent gives [PFloat] of the matched text. *)
Definition match_number (s : pystr) : option (pyval * pystr) :=
  let (neg, s1) :=
    match s with
    | c :: s' => if c =? 45 then (true, s') else (false, s)
    | [] => (false, s)
    end in
  let '(intd, s3) :=
    match s1 with
    | c :: s2 =>
        if (49 <=? c) && (c <=? 57)
        then let (ds, r) := take_digits s2 in (c :: ds, r)
        else if c =? 48 then ([c], s2) else ([], s1)
    | [] => ([], s1)
    end in
  if is_empty intd then None else
  let '(frac, s4) :=
    match s3 with
    | dot :: d :: r =>
        if (dot =? 46) && is_digit d
        then let (fd, r') := take_digits r in (dot :: d :: fd, r')
        else ([], s3)
    | _ => ([], s3)
    end in
  let '(ex, s5) :=
    match s4 with
    | e :: r =>
        if (e =? 101) || (e =? 69) then
          let (sg, r1) :=
            match r with
            | g :: r' => if (g =? 43) || (g =? 45) then ([g], r') else ([], r)
            | [] => ([], r)
            end in
          let (ed, r2) := take_digits r1 in
          if is_empty ed then ([], s4) else (e :: sg ++ ed, r2)
        else ([], s4)
    | [] => ([], s4)
    end in
  if is_empty frac && is_empty ex
  then Some (PInt (if neg then - digits_value intd else digits_value intd)%Z, s5)
  else Some (PFloat ((if neg then [45] else []) ++ intd ++ frac ++ ex), s5).

(** [scan_once] with the object and array loops. [parse_members] starts at
    the quote of a key, [parse_items] at the first character of an item. *)
Fixpoint scan_once (fuel : nat) (s : pystr) : result (pyval * pystr) :=
  match fuel with
  | O => Raise RecursionError
  | S fuel' =>
      match s with
      | [] => Raise JSONDecodeError
      | c :: s1 =>
          if c =? 34 then
            do '(str, r) <- scanstring (S (length s1)) s1 [] ; Ok (PStr str, r)
          else if c =? 123 then
            match skip_ws s1 with
            | d :: r => if d =? 125 then Ok (PDict [], r)
                        else parse_members fuel' (d :: r) []
            | [] => Raise JSONDecodeError
            end
          else if c =? 91 then
            match skip_ws s1 with
            | d :: r => if d =? 93 then Ok (PList [], r)
                        else parse_items fuel' (d :: r) []
            | [] => Raise JSONDecodeError
            end
          else if startswith (lit "null") s then Ok (PNone, drop 4 s)
          else if startswith (lit "true") s then Ok (PBool true, drop 4 s)
          else if startswith (lit "false") s then Ok (PBool false, drop 5 s)
          else if startswith (lit "NaN") s then Ok (PFloat (lit "NaN"), drop 3 s)
          else if startswith (lit "Infinity") s then Ok (PFloat (lit "Infinity"), drop 8 s)
          else if startswith (lit "-Infinity") s then Ok (PFloat (lit "-Infinity"), drop 9 s)
          else
            match match_number s with
            | Some r => Ok r
            | None => Raise JSONDecodeError
            end
      end
  end
with parse_members (fuel : nat) (s : pystr) (acc : list (pystr * pyval))
  : result (pyval * pystr) :=
  match fuel with
  | O => Raise RecursionError
  | S fuel' =>
      match s with
      | [] => Raise JSONDecodeError
      | q :: s1 =>
          if q =? 34 then
            do '(k, r) <- scanstring (S (length s1)) s1 [] ;
            match skip_ws r with
            | colon :: r1 =>
                if colon =? 58 then
                  do '(v, r2) <- scan_once fuel' (skip_ws r1) ;
                  let acc' := dict_set acc k v in
                  match skip_ws r2 with
                  | d :: r3 =>
                      if d =? 125 then Ok (PDict acc', r3)
                      else if d =? 44 then parse_members fuel' (skip_ws r3) acc'
                      else Raise JSONDecodeError
                  | [] => Raise JSONDecodeError
                  end
                else Raise JSONDecodeError
            | [] => Raise JSONDecodeError
            end
          else Raise JSONDecodeError
      end
  end
with parse_items (fuel : nat) (s : pystr) (acc : list pyval)
  : result (pyval * pystr) :=
  match fuel with
  | O => Raise RecursionError
  | S fuel' =>
      do '(v, r) <- scan_once fuel' s ;
      match skip_ws r with
      | d :: r1 =>
          if d =? 93 then Ok (PList (acc ++ [v]), r1)
          else if d =? 44 then parse_items fuel' (skip_ws r1) (acc ++ [v])
          else Raise JSONDecodeError
      | [] => Raise JSONDecodeError
      end
  end.

(** [json.loads(s)].  The scanner gets two units of fuel per character: an
    opening bracket uses one in [scan_once] and one in the loop it starts.
    That is enough for every text ([loads_fuel_adequate]). *)
Definition loads (s : pystr) : result pyval :=
  if startswith [65279] s then Raise JSONDecodeError
  else
    do '(v, r) <- scan_once (S (length s + length s)) (skip_ws s) ;
    if is_empty (skip_ws r) then Ok v else Raise JSONDecodeError.

(** *** Encoder ([ensure_ascii] left at its default) *)

Definition hexdigit (d : N) : N := if d <? 10 then 48 + d else 87 + d.

Definition to_hex4 (n : N) : pystr :=
  [hexdigit (n / 4096 mod 16); hexdigit (n / 256 mod 16);
   hexdigit (n / 16 mod 16); hexdigit (n mod 16)].

Definition escape_char (c : N) : pystr :=
  if c =? 92 then [92; 92]
  else if c =? 34 then [92; 34]
  else if c =? 8 then [92; 98]
  else if c =? 12 then [92; 102]
  else if c =? 10 then [92; 110]
  else if c =? 13 then [92; 114]
  else if c =? 9 then [92; 116]
  else if (32 <=? c) && (c <=? 126) then [c]
  else if c <? 65536 then [92; 117] ++ to_hex4 c
  else
    let n := c - 65536 in
    [92; 117] ++ to_hex4 (55296 + (n / 1024) mod 1024)
    ++ [92; 117] ++ to_hex4 (56320 + n mod 1024).

Definition encode_basestring_ascii (s : pystr) : pystr :=
  [34] ++ concat (map escape_char s) ++ [34].

Fixpoint leb_pystr (a b : pystr) : bool :=
  match a, b with
  | [], _ => true
  | _ :: _, [] => false
  | x :: a', y :: b' => if x <? y then true else if y <? x then false else leb_pystr a' b'
  end.

Fixpoint insert_sorted (kv : pystr * pystr) (l : list (pystr * pystr)) :=
  match l with
  | [] => [kv]
  | kv' :: l' =>
      if leb_pystr (fst kv) (fst kv') then kv :: l else kv' :: insert_sorted kv l'
  end.

Definition sort_by_key (l : list (pystr * pystr)) : list (pystr * pystr) :=
  fold_right insert_sorted [] l.

Definition newline_indent (depth : nat) : pystr :=
  [LF] ++ concat (repeat (lit "  ") depth).

(** [json.dumps(v, indent=2, sort_keys=True)] at nesting level [depth]. *)
Fixpoint dumps_at (rt : Runtime) (depth : nat) (v : pyval) : pystr :=
  match v with
  | PNone => lit "null"
  | PBool true => lit "true"
  | PBool false => lit "false"
  | PInt z => str_of_Z z
  | PFloat raw => str_other rt (PFloat raw)
  | PStr s => encode_basestring_ascii s
  | PList items =>
      if is_empty items then lit "[]"
      else
        lit "[" ++ newline_indent (S depth)
        ++ join (lit "," ++ newline_indent (S depth)) (map (dumps_at rt (S depth)) items)
        ++ newline_indent depth ++ lit "]"
  | PDict items =>
      if is_empty items then lit "{}"
      else
        let rendered :=
          map (fun kv : pystr * pyval => (fst kv, dumps_at rt (S depth) (snd kv))) items in
        lit "{" ++ newline_indent (S depth)
        ++ join (lit "," ++ newline_indent (S depth))
             (map (fun kr : pystr * pystr =>
                     encode_basestring_ascii (fst kr) ++ lit ": " ++ snd kr)
                  (sort_by_key rendered))
        ++ newline_indent depth ++ lit "}"
  end.

Definition dumps_indent2_sorted (rt : Runtime) (v : pyval) : pystr := dumps_at rt 0 v.

End Json.


(** ** Paths and the file system *)

Module PathLib.

(** A pure POSIX path in normal form: the anchor (empty, one slash or two
    slashes) and the components. *)
Definition Path : Type := pystr * list pystr.

Definition is_part (x : pystr) : bool :=
  nonempty x && negb (Json.eqb_pystr x (lit ".")).

(** [Path(s)]. *)
Definition mkPath (s : pystr) : Path :=
  let anchor :=
    if startswith (lit "//") s && negb (startswith (lit "///") s) then lit "//"
    else if startswith (lit "/") s then lit "/"
    else [] in
  (anchor, List.filter is_part (split_on 47 s)).

(** [p / name]. *)
Definition joinpath (p : Path) (name : pystr) : Path :=
  let q := mkPath name in
  if is_empty (fst q) then (fst p, snd p ++ snd q) else q.

(** [p.name]. *)
Definition path_name (p : Path) : pystr := List.last (snd p) [].

(** [p.parent]. *)
Definition path_parent (p : Path) : Path := (fst p, removelast (snd p)).

(** What a path names: a text file with its content as stored (decoded,
    before newline translation), or something whose reading raises. *)
Inductive node :=
| Text (content : pystr)
| Unreadable (e : exn).

(** [Path.read_text] opens the file in text mode with [newline=None], the
    universal-newlines mode of [open]: on input, lines may end in a line feed,
    a carriage return or both, and each of these endings is handed to the
    caller as one line feed. *)
Fixpoint universal_newlines (s : pystr) : pystr :=
  match s with
  | [] => []
  | c :: s' =>
      if c =? CR then
        LF :: match s' with
              | d :: s'' =>
                  if d =? LF then universal_newlines s'' else universal_newlines s'
              | [] => []
              end
      else c :: universal_newlines s'
  end.

(** [p.exists()], [p.read_text(encoding="utf-8")] and
    [p.write_text(data, encoding="utf-8")].  Writing always succeeds and
    leaves a readable text file (failures of the operating system are not
    modelled); on output a line feed becomes [os.linesep], so on POSIX the
    data is stored as given. *)
Definition path_exists (fs : gmap Path node) (p : Path) : bool :=
  match fs !! p with Some _ => true | None => false end.

Definition read_text (fs : gmap Path node) (p : Path) : result pystr :=
  match fs !! p with
  | None => Raise FileNotFoundError
  | Some (Text s) => Ok (universal_newlines s)
  | Some (Unreadable e) => Raise e
  end.

Definition write_text (fs : gmap Path node) (p : Path) (data : pystr)
  : gmap Path node :=
  <[p := Text data]> fs.

End PathLib.
Import PathLib.

(** ** Built-in conversions on decoded values *)

Module Builtins.

(** [bool(v)]. *)
Definition truthy (rt : Runtime) (v : pyval) : bool :=
  match v with
  | PNone => false
  | PBool b => b
  | PInt z => negb (z =? 0)%Z
  | PFloat raw => float_truthy rt raw
  | PStr s => nonempty s
  | PList l => nonempty l
  | PDict d => nonempty d
  end.

(** [str(v)], also what an f-string substitutes. *)
Definition py_str (rt : Runtime) (v : pyval) : pystr :=
  match v with
  | PStr s => s
  | PInt z => str_of_Z z
  | PBool true => lit "True"
  | PBool false => lit "False"
  | _ => str_other rt v
  end.

(** [int(v)]. *)
Definition py_int (rt : Runtime) (v : pyval) : result Z :=
  match v with
  | PInt z => Ok z
  | PBool b => Ok (if b then 1 else 0)%Z
  | PStr s => int_of_str rt s
  | PFloat raw => float_to_int rt raw
  | PNone | PList _ | PDict _ => Raise TypeError
  end.

(** [a or b]. *)
Definition py_or (rt : Runtime) (a b : pyval) : pyval :=
  if truthy rt a then a else b.

(** [raw.get(k, default)]; only a dict has the method. *)
Definition py_get (raw : pyval) (k : pystr) (default : pyval) : result pyval :=
  match raw with
  | PDict d => Ok (match Json.dict_lookup d k with Some v => v | None => default end)
  | _ => Raise AttributeError
  end.

Definition of_opt (o : option pystr) : pyval :=
  match o with Some s => PStr s | None => PNone end.

(** Truthiness of an optional string ([None] or [str]). *)
Definition opt_truthy (o : option pystr) : bool :=
  match o with Some s => nonempty s | None => false end.

End Builtins.
Import Builtins.

(** ** The surroundings of one invocation *)

Record Env := {
  env_cwd : Path;
  (** the Git executable: arguments and working directory to return code,
      standard output and standard error *)
  env_git : list pystr -> Path -> Z * pystr * pystr;
  (** [os.environ.get("OBSIDIAN_NOTE_PATH")] *)
  env_note_path : option pystr;
  (** [datetime.now()] *)
  env_now : datetime;
  (** [Path.expanduser] *)
  env_expanduser : Path -> Path
}.

Record World := {
  fs : gmap Path node;
  stdout : pystr;
  stderr : pystr
}.

Definition print (w : World) (line : pystr) : World :=
  {| fs := fs w; stdout := stdout w ++ line ++ [LF]; stderr := stderr w |}.

Definition eprint (w : World) (line : pystr) : World :=
  {| fs := fs w; stdout := stdout w; stderr := stderr w ++ line ++ [LF] |}.

Definition stdout_write (w : World) (text : pystr) : World :=
  {| fs := fs w; stdout := stdout w ++ text; stderr := stderr w |}.

Definition set_fs (w : World) (fs' : gmap Path node) : World :=
  {| fs := fs'; stdout := stdout w; stderr := stderr w |}.

(** ** The script *)

Definition _run_git (env : Env) (args : list pystr) (cwd : Path) : result pystr :=
  let '(returncode, out, err) := env_git env args cwd in
  if (returncode =? 0)%Z then Ok out
  else Raise (RuntimeError
                (lit "git " ++ join (lit " ") args ++ lit " failed: " ++ strip err)).

Definition _repo_root (env : Env) (cwd : Path) : result Path :=
  do out <- _run_git env [lit "rev-parse"; lit "--show-toplevel"] cwd ;
  Ok (mkPath (strip out)).

Definition _head_sha (env : Env) (cwd : Path) : result pystr :=
  do out <- _run_git env [lit "rev-parse"; lit "HEAD"] cwd ;
  Ok (strip out).

Definition _short_sha (sha : pystr) : pystr := slice_to sha 7.

Definition _branch_name (env : Env) (cwd : Path) : result pystr :=
  do out <- _run_git env [lit "rev-parse"; lit "--abbrev-ref"; lit "HEAD"] cwd ;
  Ok (strip out).

Definition _repo_name (repo_root : Path) : pystr := path_name repo_root.

Definition _merge_base (env : Env) (cwd : Path) (base_ref : pystr) : result pystr :=
  do out <- _run_git env [lit "merge-base"; base_ref; lit "HEAD"] cwd ;
  Ok (strip out).

Definition range_arg (start_sha end_sha : pystr) : pystr :=
  start_sha ++ lit ".." ++ end_sha.

Definition _git_log_oneline (env : Env) (cwd : Path) (start_sha end_sha : pystr)
  : result (list pystr) :=
  do out <- _run_git env
       [lit "log"; lit "--no-decorate"; lit "--format=%h %s"; range_arg start_sha end_sha]
       cwd ;
  Ok (map strip (List.filter (fun ln => nonempty (strip ln)) (splitlines out))).

(** One pass of the loop of [_git_name_status]: the descriptor of a raw
    line, or nothing for a line that is blank after [rstrip]. *)
Definition name_status_line (raw : pystr) : option pystr :=
  let line := rstrip raw in
  if is_empty line then None
  else
    let parts := split_on TAB line in
    let status := strip (hd [] parts) in
    let paths := List.filter nonempty (map strip (tl parts)) in
    match paths with
    | p0 :: p1 :: _ =>
        if startswith (lit "R") status then Some (status ++ lit " " ++ p0 ++ lit " -> " ++ p1)
        else if startswith (lit "C") status then Some (status ++ lit " " ++ p0 ++ lit " -> " ++ p1)
        else Some (status ++ lit " " ++ p0)
    | [p0] => Some (status ++ lit " " ++ p0)
    | [] => Some status
    end.

Definition _git_name_status (env : Env) (cwd : Path) (start_sha end_sha : pystr)
  : result (list pystr) :=
  do out <- _run_git env [lit "diff"; lit "--name-status"; range_arg start_sha end_sha] cwd ;
  Ok (omap name_status_line (splitlines out)).

Definition _git_shortstat (env : Env) (cwd : Path) (start_sha end_sha : pystr)
  : result pystr :=
  do out <- _run_git env [lit "diff"; lit "--shortstat"; range_arg start_sha end_sha] cwd ;
  Ok (strip out).

Definition _git_status_porcelain (env : Env) (cwd : Path) : result (list pystr) :=
  do out <- _run_git env [lit "status"; lit "--porcelain"] cwd ;
  Ok (map rstrip (List.filter (fun ln => nonempty (strip ln)) (splitlines out))).

(** [path.parent.mkdir(parents=True, exist_ok=True)]: directories are not
    part of the file-system model, so nothing changes. *)
Definition _ensure_parent_dir (fs : gmap Path node) (path : Path) : gmap Path node := fs.

(** Only [FileNotFoundError] is caught. *)
Definition _read_json (fs : gmap Path node) (path : Path) : result pyval :=
  match read_text fs path with
  | Ok text => Json.loads text
  | Raise FileNotFoundError => Ok (PDict [])
  | Raise e => Raise e
  end.

Definition _write_json (rt : Runtime) (fs : gmap Path node) (path : Path) (data : pyval)
  : gmap Path node :=
  write_text (_ensure_parent_dir fs path) path (Json.dumps_indent2_sorted rt data ++ [LF]).

Record Config := {
  obsidian_note_path : pyval;
  project_name : pyval;
  base_ref : pystr;
  include_diffstat : bool;
  max_commits : Z;
  max_files : Z
}.

Definition config_paths (repo_root : Path) : list Path :=
  [ joinpath (joinpath repo_root (lit ".codex")) (lit "obsidian-change-summary.json");
    joinpath repo_root (lit ".obsidian-change-summary.json") ].

(** The loop over [config_paths]: the first path that exists is read. *)
Fixpoint first_config (fs : gmap Path node) (paths : list Path) : result pyval :=
  match paths with
  | [] => Ok (PDict [])
  | p :: rest => if path_exists fs p then _read_json fs p else first_config fs rest
  end.

Definition _load_config (rt : Runtime) (fs : gmap Path node) (repo_root : Path)
  : result Config :=
  do raw <- first_config fs (config_paths repo_root) ;
  do note <- py_get raw (lit "obsidian_note_path") PNone ;
  do name <- py_get raw (lit "project_name") PNone ;
  do bref <- py_get raw (lit "base_ref") PNone ;
  do idiff <- py_get raw (lit "include_diffstat") (PBool true) ;
  do mc <- py_get raw (lit "max_commits") (PInt 20) ;
  do mc' <- py_int rt mc ;
  do mf <- py_get raw (lit "max_files") (PInt 50) ;
  do mf' <- py_int rt mf ;
  Ok {| obsidian_note_path := note;
        project_name := name;
        base_ref := py_str rt (py_or rt bref (PStr (lit "origin/main")));
        include_diffstat := truthy rt idiff;
        max_commits := mc';
        max_files := mf' |}.

Definition _state_path (repo_root : Path) : Path :=
  joinpath (joinpath repo_root (lit ".codex")) (lit "obsidian-change-summary.state.json").

Definition _load_last_sha (fs : gmap Path node) (repo_root : Path)
  : result (option pystr) :=
  do raw <- _read_json fs (_state_path repo_root) ;
  do sha <- py_get raw (lit "last_sha") PNone ;
  match sha with
  | PStr s => if nonempty (strip s) then Ok (Some (strip s)) else Ok None
  | _ => Ok None
  end.

Definition _write_last_sha (rt : Runtime) (fs : gmap Path node) (repo_root : Path)
  (sha : pystr) : gmap Path node :=
  _write_json rt fs (_state_path repo_root) (PDict [(lit "last_sha", PStr sha)]).

(** *** The formatter, block by block *)

Definition bullet (item : pystr) : pystr := lit "- " ++ item.

(** The line [- ...and N more], with the ellipsis U+2026. *)
Definition more_line (n : Z) : pystr :=
  [45; 32; 8230] ++ lit "and " ++ str_of_Z n ++ lit " more".

(** The header: [## ts - title (branch)] with the dash U+2014, a blank line,
    the repository and the range, a blank line. *)
Definition header_lines (rt : Runtime) (when : datetime) (repo_root : Path)
  (project_name : pyval) (branch start_sha end_sha : pystr) : list pystr :=
  let title_project := py_str rt (py_or rt project_name (PStr (_repo_name repo_root))) in
  let ts := strftime_minutes rt when in
  [ lit "## " ++ ts ++ [32; 8212; 32] ++ title_project ++ lit " (" ++ branch ++ lit ")";
    [];
    lit "- Repo: " ++ _repo_name repo_root;
    lit "- Range: " ++ _short_sha start_sha ++ lit ".." ++ _short_sha end_sha;
    [] ].

(** The blocks [if commits:] and [if files:]; they differ in the heading. *)
Definition listing_lines (heading : pystr) (items : list pystr) (bound : Z)
  : list pystr :=
  if nonempty items then
    let shown := slice_to items (Z.max 0 bound) in
    [heading] ++ map bullet shown
    ++ (if (bound >=? 0)%Z && (Z.of_nat (length items) >? bound)%Z
        then [more_line (Z.of_nat (length items) - bound)] else [])
    ++ [[]]
  else [].

Definition commits_heading : pystr := lit "### Commits".
Definition files_heading : pystr := lit "### Files".
Definition stats_heading : pystr := lit "### Stats".
Definition working_tree_heading : pystr := lit "### Working tree (uncommitted)".

Definition stats_lines (diffstat : option pystr) : list pystr :=
  match diffstat with
  | Some d => if nonempty d then [stats_heading; lit "```"; d; lit "```"; []] else []
  | None => []
  end.

Definition working_tree_lines (working_tree : option (list pystr)) : list pystr :=
  match working_tree with
  | Some wt => if nonempty wt then [working_tree_heading] ++ map bullet wt ++ [[]] else []
  | None => []
  end.

(** The list [lines] at the [return] of [_format_entry]. *)
Definition entry_lines (rt : Runtime) (when : datetime) (repo_root : Path)
  (project_name : pyval) (branch start_sha end_sha : pystr)
  (commits files : list pystr) (diffstat : option pystr)
  (working_tree : option (list pystr)) (max_commits max_files : Z) : list pystr :=
  header_lines rt when repo_root project_name branch start_sha end_sha
  ++ listing_lines commits_heading commits max_commits
  ++ listing_lines files_heading files max_files
  ++ stats_lines diffstat
  ++ working_tree_lines working_tree.

Definition _format_entry (rt : Runtime) (when : datetime) (repo_root : Path)
  (project_name : pyval) (branch start_sha end_sha : pystr)
  (commits files : list pystr) (diffstat : option pystr)
  (working_tree : option (list pystr)) (max_commits max_files : Z) : pystr :=
  rstrip (join [LF]
            (entry_lines rt when repo_root project_name branch start_sha end_sha
               commits files diffstat working_tree max_commits max_files))
  ++ [LF].

Definition _append_to_note (fs : gmap Path node) (note_path : Path) (entry : pystr)
  : result (gmap Path node) :=
  let fs := _ensure_parent_dir fs note_path in
  if path_exists fs note_path then
    do existing <- read_text fs note_path ;
    let sep := if endswith [LF] existing then [] else [LF] in
    Ok (write_text fs note_path (existing ++ sep ++ entry))
  else Ok (write_text fs note_path entry).

(** *** The entry point *)

Record Args := {
  note : option pystr;
  base : option pystr;
  since : option pystr;
  dry_run : bool;
  no_state : bool;
  no_diffstat : bool
}.

Inductive outcome :=
| Exit (code : Z)
| Uncaught (e : exn).

Definition missing_note_message : pystr :=
  lit "Missing Obsidian note path. Set it in .codex/obsidian-change-summary.json "
  ++ lit "as obsidian_note_path, or pass --note, or set OBSIDIAN_NOTE_PATH.".

Definition no_changes_message : pystr :=
  lit "No changes detected (no commits, no diff, clean working tree).".

(** [note = args.note or cfg.obsidian_note_path or os.environ.get(...)]. *)
Definition main_note (rt : Runtime) (env : Env) (args : Args) (cfg : Config) : pyval :=
  py_or rt (py_or rt (of_opt (note args)) (obsidian_note_path cfg))
    (of_opt (env_note_path env)).

(** The start of the range: the assignments to [start_sha] in [main]. *)
Definition main_start_sha (env : Env) (args : Args) (cfg : Config)
  (fs : gmap Path node) (repo_root : Path) : result pystr :=
  do start_sha <-
    (if opt_truthy (since args) then Ok (since args)
     else if negb (no_state args) then _load_last_sha fs repo_root
     else Ok None) ;
  let base_ref := if opt_truthy (base args) then default [] (base args) else base_ref cfg in
  if opt_truthy start_sha then Ok (default [] start_sha)
  else _merge_base env repo_root base_ref.

(** What [main] has queried when it reaches the no-changes test. *)
Record Gathered := {
  g_end_sha : pystr;
  g_start_sha : pystr;
  g_commits : list pystr;
  g_files : list pystr;
  g_diffstat : option pystr;
  g_working_tree : option (list pystr)
}.

(** The fallback [working_tree]: queried only when there is neither a commit
    nor a changed file, kept only when the status is not empty. *)
Definition main_working_tree (env : Env) (repo_root : Path)
  (commits files : list pystr) : result (option (list pystr)) :=
  if is_empty commits && is_empty files then
    do wt <- _git_status_porcelain env repo_root ;
    Ok (if nonempty wt then Some wt else None)
  else Ok None.

Definition main_gather (env : Env) (args : Args) (cfg : Config)
  (fs : gmap Path node) (repo_root : Path) : result Gathered :=
  do end_sha <- _head_sha env repo_root ;
  do start_sha <- main_start_sha env args cfg fs repo_root ;
  do commits <- _git_log_oneline env repo_root start_sha end_sha ;
  do files <- _git_name_status env repo_root start_sha end_sha ;
  let include_diffstat := include_diffstat cfg && negb (no_diffstat args) in
  do diffstat <-
    (if include_diffstat
     then do d <- _git_shortstat env repo_root start_sha end_sha ; Ok (Some d)
     else Ok None) ;
  let diffstat := match diffstat with
                  | Some d => if nonempty d then Some d else None
                  | None => None
                  end in
  do working_tree <- main_working_tree env repo_root commits files ;
  Ok {| g_end_sha := end_sha; g_start_sha := start_sha; g_commits := commits;
        g_files := files; g_diffstat := diffstat; g_working_tree := working_tree |}.

(** The entry [main] formats from what it gathered. *)
Definition main_entry (rt : Runtime) (env : Env) (cfg : Config) (repo_root : Path)
  (branch : pystr) (g : Gathered) : pystr :=
  _format_entry rt (env_now env) repo_root (project_name cfg) branch
    (g_start_sha g) (g_end_sha g) (g_commits g) (g_files g) (g_diffstat g)
    (g_working_tree g) (max_commits cfg) (max_files cfg).

Definition wt_truthy (working_tree : option (list pystr)) : bool :=
  match working_tree with Some wt => nonempty wt | None => false end.

(** From the no-changes test to the end of [main]. *)
Definition main_report (rt : Runtime) (env : Env) (args : Args) (cfg : Config)
  (repo_root : Path) (note : pyval) (g : Gathered) (w : World) : outcome * World :=
  if is_empty (g_commits g) && is_empty (g_files g) && negb (wt_truthy (g_working_tree g))
  then
    let w1 := print w no_changes_message in
    let w2 := if negb (no_state args) && negb (dry_run args)
              then set_fs w1 (_write_last_sha rt (fs w1) repo_root (g_end_sha g))
              else w1 in
    (Exit 0, w2)
  else
    match _branch_name env repo_root with
    | Raise e => (Uncaught e, w)
    | Ok branch =>
        let entry := main_entry rt env cfg repo_root branch g in
        if dry_run args || negb (truthy rt note) then (Exit 0, stdout_write w entry)
        else
          match note with
          | PStr path =>
              match _append_to_note (fs w) (env_expanduser env (mkPath path)) entry with
              | Raise e => (Uncaught e, w)
              | Ok fs1 =>
                  let fs2 := if negb (no_state args)
                             then _write_last_sha rt fs1 repo_root (g_end_sha g)
                             else fs1 in
                  (Exit 0, print (set_fs w fs2)
                             (lit "Appended change summary to: " ++ py_str rt note))
              end
          | _ => (Uncaught TypeError, w)
          end
    end.

(** [main], from the parsed arguments on. *)
Definition main (rt : Runtime) (env : Env) (args : Args) (w : World)
  : outcome * World :=
  match _repo_root env (env_cwd env) with
  | Raise e => (Uncaught e, w)
  | Ok repo_root =>
      match _load_config rt (fs w) repo_root with
      | Raise e => (Uncaught e, w)
      | Ok cfg =>
          let note := main_note rt env args cfg in
          if negb (truthy rt note) && negb (dry_run args)
          then (Exit 2, eprint w missing_note_message)
          else
            match main_gather env args cfg (fs w) repo_root with
            | Raise e => (Uncaught e, w)
            | Ok g => main_report rt env args cfg repo_root note g w
            end
      end
  end.


(** ** Statements in the words of the specification *)




(** No carriage return in a text. *)
Definition cr_free (s : pystr) : Prop := Forall (fun c => c <> CR) s.

(** A text made of Unicode scalar values: no surrogate code point, nothing
    above U+10FFFF.  Every string decoded from the output of a process or
    from a file is of this kind. *)
Definition is_scalar_value (c : N) : bool :=
  (c <? 55296) || ((57344 <=? c) && (c <? 1114112)).

Definition well_formed_text (s : pystr) : Prop := forallb is_scalar_value s = true.

Definition is_scalar (c : N) : Prop := c < 55296 \/ (57344 <= c /\ c < 1114112).

(** The state file around the escaped characters of the checkpoint. *)
Definition state_pre : pystr :=
  lit "{" ++ [LF] ++ lit "  " ++ [34] ++ lit "last_sha" ++ [34] ++ lit ": " ++ [34].

Definition state_post : pystr := [34; LF] ++ lit "}" ++ [LF].

(** The configuration of a repository without a configuration file. *)
Definition default_config : Config :=
  {| obsidian_note_path := PNone;
     project_name := PNone;
     base_ref := lit "origin/main";
     include_diffstat := true;
     max_commits := 20;
     max_files := 50 |}.

(** ** Notions used by the properties of the other functions *)

(** No surrounding whitespace. *)
Definition trimmed (s : pystr) : Prop := lstrip s = s /\ rstrip s = s.

(** No line boundary of [str.splitlines] in a text. *)
Definition one_line (s : pystr) : Prop := Forall (fun c => is_linebreak c = false) s.

(** No tab in a text. *)
Definition tab_free (s : pystr) : Prop := Forall (fun c => c <> TAB) s.

(** The output of a command that prints each of [lines] followed by a line
    feed. *)
Definition printed (lines : list pystr) : pystr :=
  concat (map (fun l => l ++ [LF]) lines).

Definition dict_get (d : list (pystr * pyval)) (k : pystr) (default : pyval) : pyval :=
  match Json.dict_lookup d k with Some v => v | None => default end.

(** A value [int] rejects with a [TypeError]. *)
Definition not_a_number (v : pyval) : Prop :=
  v = PNone \/ (exists l, v = PList l) \/ (exists l, v = PDict l).

(** The title of an entry: the project name when it is truthy, else the name
    of the repository. *)
Definition entry_title (rt : Runtime) (repo_root : Path) (project_name : pyval) : pystr :=
  py_str rt (py_or rt project_name (PStr (_repo_name repo_root))).

(** ** Proof steps used more than once *)

(** Case analysis on the first computation of a chain of binds. *)
Ltac case_bind :=
  match goal with
  | |- context [bind ?c _] => destruct c eqn:?; cbn [bind]; [| discriminate]
  end.

(** Linear arithmetic with division and remainder by constants. *)
Ltac div_lia := zify; Z.to_euclidean_division_equations; lia.

(** ** Sample surroundings, used to run the embedding *)

Module Sample.

Definition rt : Runtime :=
  {| float_truthy := fun raw => negb (Json.eqb_pystr raw (lit "0.0"));
     float_to_int := fun _ => Raise ValueError;
     int_of_str := fun s => Ok (Json.digits_value s);
     str_other := fun _ => lit "None";
     strftime_minutes := fun _ => lit "2024-05-17 09:30" |}.

Definition when : datetime :=
  {| dt_year := 2024; dt_month := 5; dt_day := 17; dt_hour := 9; dt_minute := 30 |}.

Definition repo_root : Path := mkPath (lit "/home/dev/EscapeBudget").

(** A repository whose HEAD is [head]: the four range queries answer with
    the given texts, any other command fails. *)
Definition git (head log diff stat status : pystr) (args : list pystr) (cwd : Path)
  : Z * pystr * pystr :=
  let same (a : pystr) (b : string) := Json.eqb_pystr a (lit b) in
  match args with
  | [a; b] =>
      if same a "rev-parse"%string && same b "--show-toplevel"%string
      then (0%Z, lit "/home/dev/EscapeBudget" ++ [LF], [])
      else if same a "rev-parse"%string && same b "HEAD"%string then (0%Z, head ++ [LF], [])
      else if same a "status"%string && same b "--porcelain"%string then (0%Z, status, [])
      else (1%Z, [], lit "usage")
  | [a; b; c] =>
      if same a "rev-parse"%string && same b "--abbrev-ref"%string then (0%Z, lit "main" ++ [LF], [])
      else if same a "merge-base"%string then (0%Z, lit "0000000ba5e" ++ [LF], [])
      else if same a "diff"%string && same b "--name-status"%string then (0%Z, diff, [])
      else if same a "diff"%string && same b "--shortstat"%string then (0%Z, stat, [])
      else (1%Z, [], lit "usage")
  | [a; b; c; d] =>
      if same a "log"%string then (0%Z, log, []) else (1%Z, [], lit "usage")
  | _ => (128%Z, [], lit "fatal: not a git repository")
  end.

Definition head : pystr := lit "2222222bbbb".

(** Nothing changed since the range start. *)
Definition env_clean : Env :=
  {| env_cwd := repo_root;
     env_git := git head [] [] [] [];
     env_note_path := None;
     env_now := when;
     env_expanduser := fun p => p |}.

(** One commit touching one file. *)
Definition env_one_commit : Env :=
  {| env_cwd := repo_root;
     env_git := git head (lit "2222222 third" ++ [LF])
                  (lit "M" ++ [TAB] ++ lit "a.py" ++ [LF])
                  (lit " 1 file changed, 2 insertions(+)" ++ [LF]) [];
     env_note_path := None;
     env_now := when;
     env_expanduser := fun p => p |}.

(** No commit in the range, two uncommitted modifications. *)
Definition env_dirty : Env :=
  {| env_cwd := repo_root;
     env_git := git head [] [] []
                  (lit " M a.py" ++ [LF] ++ lit "?? b.py" ++ [LF]);
     env_note_path := None;
     env_now := when;
     env_expanduser := fun p => p |}.

Definition args_default : Args :=
  {| note := None; base := None; since := None;
     dry_run := false; no_state := false; no_diffstat := false |}.

Definition args_note : Args :=
  {| note := Some (lit "/home/dev/vault/log.md"); base := None; since := None;
     dry_run := false; no_state := false; no_diffstat := false |}.

Definition args_since : Args :=
  {| note := Some (lit "/home/dev/vault/log.md"); base := None;
     since := Some (lit "1111111aaaa");
     dry_run := false; no_state := false; no_diffstat := false |}.

Definition args_dry : Args :=
  {| note := None; base := None; since := None;
     dry_run := true; no_state := false; no_diffstat := false |}.

Definition cfg_default : Config := default_config.

Definition note_path : Path := mkPath (lit "/home/dev/vault/log.md").

(** A state file holding a checkpoint. *)
Definition state_text : pystr :=
  lit "{" ++ [LF] ++ lit "  " ++ [34] ++ lit "last_sha" ++ [34] ++ lit ": "
  ++ [34] ++ lit "3333333cccc" ++ [34] ++ [LF] ++ lit "}" ++ [LF].

Definition fs_empty : gmap Path node := ∅.

Definition fs_state : gmap Path node :=
  <[_state_path repo_root := Text state_text]> fs_empty.

(** A state file cut short, and a configuration file cut short. *)
Definition fs_bad_state : gmap Path node :=
  <[_state_path repo_root := Text (lit "{" ++ [34] ++ lit "last_sha" ++ [34] ++ lit ": ")]>
    fs_empty.

Definition fs_bad_config : gmap Path node :=
  <[joinpath repo_root (lit ".obsidian-change-summary.json") := Text (lit "{")]> fs_empty.


Definition entry_plain : pystr :=
  _format_entry rt when repo_root PNone (lit "main")
    (lit "2222222bbbb") (lit "4444444dddd") [lit "4444444 fourth"] [] None None 20 50.


Definition gathered_dirty : Gathered :=
  {| g_end_sha := head; g_start_sha := lit "0000000ba5e"; g_commits := [];
     g_files := []; g_diffstat := None;
     g_working_tree := Some [lit " M a.py"; lit "?? b.py"] |}.

(** A configuration at the root that sets two keys, one whose [max_commits]
    is null, and an empty one under [.codex]. *)
Definition fs_config_partial : gmap Path node :=
  <[joinpath repo_root (lit ".obsidian-change-summary.json")
    := Text (lit "{" ++ [34] ++ lit "max_files" ++ [34] ++ lit ": 3, "
             ++ [34] ++ lit "include_diffstat" ++ [34] ++ lit ": false}")]> fs_empty.

Definition fs_config_null : gmap Path node :=
  <[joinpath repo_root (lit ".obsidian-change-summary.json")
    := Text (lit "{" ++ [34] ++ lit "max_commits" ++ [34] ++ lit ": null}")]> fs_empty.

Definition fs_codex_config : gmap Path node :=
  <[joinpath (joinpath repo_root (lit ".codex")) (lit "obsidian-change-summary.json")
    := Text (lit "{}")]> fs_empty.

(** What [main] gathers in [env_one_commit]. *)
Definition gathered_one_commit : Gathered :=
  {| g_end_sha := head; g_start_sha := lit "0000000ba5e";
     g_commits := [lit "2222222 third"]; g_files := [lit "M a.py"];
     g_diffstat := Some (lit "1 file changed, 2 insertions(+)");
     g_working_tree := None |}.

(** A configuration whose destination is a number. *)
Definition fs_config_number : gmap Path node :=
  <[joinpath repo_root (lit ".obsidian-change-summary.json")
    := Text (lit "{" ++ [34] ++ lit "obsidian_note_path" ++ [34] ++ lit ": 5}")]> fs_empty.

Definition cfg_number : Config :=
  {| obsidian_note_path := PInt 5; project_name := PNone;
     base_ref := lit "origin/main"; include_diffstat := true;
     max_commits := 20; max_files := 50 |}.

Definition world (fs0 : gmap Path node) : World :=
  {| fs := fs0; stdout := []; stderr := [] |}.

End Sample.

(** * Properties *)

Example ex_rstrip : rstrip (lit " a b  " ++ [LF]) = lit " a b".
Proof. reflexivity. Qed.
Example ex_splitlines :
  splitlines (lit "a" ++ [CR; LF] ++ [LF] ++ lit "b" ++ [LF]) = [lit "a"; []; lit "b"].
Proof. reflexivity. Qed.
Example ex_split : split_on TAB (lit "R100" ++ [TAB] ++ lit "a" ++ [TAB] ++ lit "b")
                   = [lit "R100"; lit "a"; lit "b"].
Proof. reflexivity. Qed.
Example ex_slice : slice_to [1;2;3] (-1) = [1;2] /\ slice_to [1;2;3] 5 = [1;2;3]
                   /\ slice_to [1;2;3] 0 = [] /\ slice_to [1;2;3] (-7) = [].
Proof. repeat split. Qed.
Example ex_str : str_of_Z 120 = lit "120" /\ str_of_Z (-3) = lit "-3" /\ str_of_Z 0 = lit "0".
Proof. repeat split. Qed.
Example ex_join : join [LF] [lit "a"; []; lit "b"] = lit "a" ++ [LF; LF] ++ lit "b".
Proof. reflexivity. Qed.
Example ex_ends : endswith [LF] (lit "a" ++ [LF]) = true /\ endswith [LF] [] = false.
Proof. split; reflexivity. Qed.

(** ** Lists and strings *)

Lemma nonempty_true {A} (l : list A) : nonempty l = true <-> l <> [].
Proof. destruct l; cbn; split; congruence. Qed.

Lemma nonempty_false {A} (l : list A) : nonempty l = false <-> l = [].
Proof. destruct l; cbn; split; congruence. Qed.

Lemma is_empty_true {A} (l : list A) : is_empty l = true <-> l = [].
Proof. destruct l; cbn; split; congruence. Qed.


(** ** The listing blocks of the formatter *)

Lemma listing_lines_nil heading bound : listing_lines heading [] bound = [].
Proof. reflexivity. Qed.


Lemma listing_lines_negative heading items bound :
  (bound < 0)%Z -> items <> [] -> listing_lines heading items bound = [heading; []].
Proof.
  intros Hb Hne. unfold listing_lines.
  apply nonempty_true in Hne as ->.
  rewrite Z.max_l by lia.
  destruct (Z.geb_spec bound 0); [lia |]. reflexivity.
Qed.



Example ex_listing_overflow :
  listing_lines files_heading [lit "M a.py"; lit "A b.py"] 1
  = [files_heading; lit "- M a.py"; [45; 32; 8230] ++ lit "and 1 more"; []].
Proof. reflexivity. Qed.

Example ex_listing_exact :
  listing_lines commits_heading [lit "a"; lit "b"; lit "c"] 20
  = [commits_heading; lit "- a"; lit "- b"; lit "- c"; []].
Proof. reflexivity. Qed.

(** C3, as the claim states it, fails: with bound -1 and one commit the
    Commits section is the heading and a blank line, and no line of it is an
    overflow line. *)
Lemma C3_counterexample :
  listing_lines commits_heading [lit "2222222 third"] (-1) = [commits_heading; []]
  /\ ~ (exists n, In (more_line n) (listing_lines commits_heading [lit "2222222 third"] (-1))).
Proof.
  split; [reflexivity |].
  intros [n Hin]. cbn in Hin.
  destruct Hin as [H | [H | []]]; discriminate H.
Qed.

(** C3, amended. For a negative max_commits (max_files) and a non-empty
    commit (file) list, the section is the heading followed by a blank line:
    no list entry is shown and no overflow line is added. *)
Theorem C3_negative_bound_shows_heading_only (rt : Runtime) (when : datetime)
  (repo_root : Path) (project_name : pyval) (branch start_sha end_sha : pystr)
  (commits files : list pystr) (diffstat : option pystr)
  (working_tree : option (list pystr)) (max_commits max_files : Z) :
  ((max_commits < 0)%Z -> commits <> [] ->
   entry_lines rt when repo_root project_name branch start_sha end_sha
     commits files diffstat working_tree max_commits max_files
   = header_lines rt when repo_root project_name branch start_sha end_sha
     ++ [commits_heading; []]
     ++ listing_lines files_heading files max_files
     ++ stats_lines diffstat ++ working_tree_lines working_tree)
  /\ ((max_files < 0)%Z -> files <> [] ->
      entry_lines rt when repo_root project_name branch start_sha end_sha
        commits files diffstat working_tree max_commits max_files
      = header_lines rt when repo_root project_name branch start_sha end_sha
        ++ listing_lines commits_heading commits max_commits
        ++ [files_heading; []]
        ++ stats_lines diffstat ++ working_tree_lines working_tree).
Proof.
  split; intros Hb Hne; unfold entry_lines;
    rewrite (listing_lines_negative _ _ _ Hb Hne); reflexivity.
Qed.

Lemma C3_witness :
  entry_lines Sample.rt Sample.when Sample.repo_root PNone (lit "main")
    (lit "1111111aaaa") (lit "2222222bbbb")
    [lit "2222222 third"] [] None None (-1) 50
  = header_lines Sample.rt Sample.when Sample.repo_root PNone (lit "main")
      (lit "1111111aaaa") (lit "2222222bbbb")
    ++ [commits_heading; []]
    ++ listing_lines files_heading [] 50
    ++ stats_lines None ++ working_tree_lines None.
Proof.
  apply (proj1 (C3_negative_bound_shows_heading_only Sample.rt Sample.when
                  Sample.repo_root PNone (lit "main") (lit "1111111aaaa")
                  (lit "2222222bbbb") [lit "2222222 third"] [] None None (-1) 50)).
  - reflexivity.
  - intros H; discriminate H.
Defined.

(** ** Range start *)

Lemma opt_truthy_some (o : option pystr) (s : pystr) :
  o = Some s -> s <> [] -> opt_truthy o = true.
Proof. intros -> Hs. cbn. apply nonempty_true. exact Hs. Qed.

Lemma load_last_sha_truthy fs repo_root v :
  _load_last_sha fs repo_root = Ok (Some v) -> v <> [].
Proof.
  unfold _load_last_sha.
  destruct (_read_json fs (_state_path repo_root)) as [raw |]; cbn [bind]; [| discriminate].
  destruct (py_get raw (lit "last_sha") PNone) as [sha |]; cbn [bind]; [| discriminate].
  destruct sha; try discriminate.
  destruct (nonempty (strip s)) eqn:Hn; [| discriminate].
  intros [= <-]. apply nonempty_true. exact Hn.
Qed.

Lemma main_gather_inv (env : Env) (args : Args) (cfg : Config)
  (fs : gmap Path node) (repo_root : Path) (g : Gathered) :
  main_gather env args cfg fs repo_root = Ok g ->
  _head_sha env repo_root = Ok (g_end_sha g)
  /\ main_start_sha env args cfg fs repo_root = Ok (g_start_sha g)
  /\ _git_log_oneline env repo_root (g_start_sha g) (g_end_sha g) = Ok (g_commits g)
  /\ _git_name_status env repo_root (g_start_sha g) (g_end_sha g) = Ok (g_files g)
  /\ main_working_tree env repo_root (g_commits g) (g_files g) = Ok (g_working_tree g).
Proof.
  unfold main_gather. do 6 case_bind. intros [= <-]. cbn.
  repeat split; assumption.
Qed.

(** C1. The start of the range is resolved in priority order: an explicit
    override (a non-empty value of the option, the only kind the test
    [if args.since] lets through) is used whatever the checkpoint store
    holds; without an override, a stored checkpoint is used when state is
    enabled; otherwise the merge-base of the base reference and HEAD is
    used.  The range [main] gathers starts there. *)
Theorem C1_range_start_priority (env : Env) (args : Args) (cfg : Config)
  (fs : gmap Path node) (repo_root : Path) :
  (forall s, since args = Some s -> s <> [] ->
     main_start_sha env args cfg fs repo_root = Ok s)
  /\ (forall v, opt_truthy (since args) = false -> no_state args = false ->
        _load_last_sha fs repo_root = Ok (Some v) ->
        main_start_sha env args cfg fs repo_root = Ok v)
  /\ (opt_truthy (since args) = false ->
      no_state args = true \/ _load_last_sha fs repo_root = Ok None ->
      main_start_sha env args cfg fs repo_root
      = _merge_base env repo_root
          (if opt_truthy (base args) then default [] (base args) else base_ref cfg))
  /\ (forall g, main_gather env args cfg fs repo_root = Ok g ->
        main_start_sha env args cfg fs repo_root = Ok (g_start_sha g)).
Proof.
  repeat split.
  - intros s Hs Hne. unfold main_start_sha.
    rewrite (opt_truthy_some _ _ Hs Hne). rewrite Hs. cbn.
    apply nonempty_true in Hne. rewrite Hne. reflexivity.
  - intros v Hsince Hstate Hload. unfold main_start_sha.
    rewrite Hsince, Hstate, Hload. cbn.
    pose proof (load_last_sha_truthy _ _ _ Hload) as Hv.
    apply nonempty_true in Hv. rewrite Hv. reflexivity.
  - intros Hsince [Hstate | Hload]; unfold main_start_sha; rewrite Hsince.
    + rewrite Hstate. reflexivity.
    + destruct (no_state args); cbn; [reflexivity |]. rewrite Hload. reflexivity.
  - intros g Hg. apply (main_gather_inv _ _ _ _ _ _ Hg).
Qed.

(** With both an override and a stored checkpoint, the override wins. *)
Lemma C1_witness :
  _load_last_sha Sample.fs_state Sample.repo_root = Ok (Some (lit "3333333cccc"))
  /\ main_start_sha Sample.env_clean Sample.args_since Sample.cfg_default
       Sample.fs_state Sample.repo_root = Ok (lit "1111111aaaa").
Proof.
  split; [vm_compute; reflexivity |].
  apply (proj1 (C1_range_start_priority Sample.env_clean Sample.args_since
                  Sample.cfg_default Sample.fs_state Sample.repo_root)
           (lit "1111111aaaa")).
  - reflexivity.
  - intros H; discriminate H.
Defined.

Example ex_start_from_state :
  main_start_sha Sample.env_clean Sample.args_note Sample.cfg_default
    Sample.fs_state Sample.repo_root = Ok (lit "3333333cccc").
Proof. vm_compute. reflexivity. Qed.

Example ex_start_from_merge_base :
  main_start_sha Sample.env_clean Sample.args_note Sample.cfg_default
    Sample.fs_empty Sample.repo_root = Ok (lit "0000000ba5e").
Proof. vm_compute. reflexivity. Qed.

(** An empty override counts as no override. *)
Example ex_empty_override_ignored :
  main_start_sha Sample.env_clean
    {| note := None; base := None; since := Some [];
       dry_run := false; no_state := false; no_diffstat := false |}
    Sample.cfg_default Sample.fs_state Sample.repo_root = Ok (lit "3333333cccc").
Proof. vm_compute. reflexivity. Qed.

(** ** Checkpoint and configuration files *)

Lemma read_json_absent fs path : fs !! path = None -> _read_json fs path = Ok (PDict []).
Proof. intros H. unfold _read_json, read_text. rewrite H. reflexivity. Qed.

Lemma read_json_text fs path text :
  fs !! path = Some (Text text) ->
  _read_json fs path = Json.loads (universal_newlines text).
Proof.
  intros H. unfold _read_json, read_text. rewrite H.
  destruct (Json.loads (universal_newlines text)); reflexivity.
Qed.

Lemma read_json_unreadable fs path e :
  fs !! path = Some (Unreadable e) -> e <> FileNotFoundError ->
  _read_json fs path = Raise e.
Proof.
  intros H Hne. unfold _read_json, read_text. rewrite H.
  destruct e; try reflexivity. contradiction.
Qed.

(** C4, as the claim states it, fails: a state file cut short after the key
    is malformed, and loading the checkpoint raises the decoding error
    instead of returning None. *)
Lemma C4_counterexample :
  _load_last_sha Sample.fs_bad_state Sample.repo_root = Raise JSONDecodeError
  /\ _load_last_sha Sample.fs_bad_state Sample.repo_root <> Ok None.
Proof.
  assert (H : _load_last_sha Sample.fs_bad_state Sample.repo_root
              = Raise JSONDecodeError) by (vm_compute; reflexivity).
  split; [exact H |]. rewrite H. discriminate.
Qed.

(** C4, amended. Loading the checkpoint returns None when the state file is
    absent, and when it holds a JSON object whose last_sha is missing, is not
    a string or is empty after trimming whitespace.  A state file that is
    unreadable, is not valid JSON or holds a JSON value other than an object
    makes the load raise to the caller. *)
Theorem C4_load_none_or_raise (fs : gmap Path node) (repo_root : Path) :
  (fs !! _state_path repo_root = None -> _load_last_sha fs repo_root = Ok None)
  /\ (forall text d,
        fs !! _state_path repo_root = Some (Text text) ->
        Json.loads (universal_newlines text) = Ok (PDict d) ->
        (forall s, Json.dict_lookup d (lit "last_sha") = Some (PStr s) -> strip s = []) ->
        _load_last_sha fs repo_root = Ok None)
  /\ (forall text e,
        fs !! _state_path repo_root = Some (Text text) ->
        Json.loads (universal_newlines text) = Raise e ->
        _load_last_sha fs repo_root = Raise e)
  /\ (forall text v,
        fs !! _state_path repo_root = Some (Text text) ->
        Json.loads (universal_newlines text) = Ok v ->
        (forall d, v <> PDict d) ->
        _load_last_sha fs repo_root = Raise AttributeError)
  /\ (forall e,
        fs !! _state_path repo_root = Some (Unreadable e) ->
        e <> FileNotFoundError ->
        _load_last_sha fs repo_root = Raise e).
Proof.
  repeat split.
  - intros H. unfold _load_last_sha. rewrite (read_json_absent _ _ H). reflexivity.
  - intros text d H Hl Hblank. unfold _load_last_sha.
    rewrite (read_json_text _ _ _ H), Hl. cbn [bind py_get].
    destruct (Json.dict_lookup d (lit "last_sha")) as [v |] eqn:Hv; [| reflexivity].
    destruct v; try reflexivity.
    rewrite (Hblank _ eq_refl). reflexivity.
  - intros text e H Hl. unfold _load_last_sha.
    rewrite (read_json_text _ _ _ H), Hl. reflexivity.
  - intros text v H Hl Hnd. unfold _load_last_sha.
    rewrite (read_json_text _ _ _ H), Hl. cbn [bind].
    destruct v; try reflexivity. exfalso. exact (Hnd _ eq_refl).
  - intros e H Hne. unfold _load_last_sha.
    rewrite (read_json_unreadable _ _ _ H Hne). reflexivity.
Qed.

Lemma C4_witness :
  _load_last_sha Sample.fs_empty Sample.repo_root = Ok None.
Proof.
  apply (proj1 (C4_load_none_or_raise Sample.fs_empty Sample.repo_root)).
  reflexivity.
Defined.

Lemma first_config_absent fs paths :
  Forall (fun p => fs !! p = None) paths -> first_config fs paths = Ok (PDict []).
Proof.
  induction 1 as [| p rest Hp _ IH]; [reflexivity |].
  cbn [first_config]. unfold path_exists. rewrite Hp. exact IH.
Qed.

Lemma load_config_raw_raise rt fs repo_root e :
  first_config fs (config_paths repo_root) = Raise e ->
  _load_config rt fs repo_root = Raise e.
Proof. intros H. unfold _load_config. rewrite H. reflexivity. Qed.

(** C5, as the claim states it, fails: with a configuration file that holds
    only an opening brace, loading the configuration raises the decoding
    error instead of returning the defaults. *)
Lemma C5_counterexample :
  _load_config Sample.rt Sample.fs_bad_config Sample.repo_root = Raise JSONDecodeError
  /\ _load_config Sample.rt Sample.fs_bad_config Sample.repo_root <> Ok default_config.
Proof.
  assert (H : _load_config Sample.rt Sample.fs_bad_config Sample.repo_root
              = Raise JSONDecodeError) by (vm_compute; reflexivity).
  split; [exact H |]. rewrite H. discriminate.
Qed.

(** C5, amended. When neither configuration file exists, loading the
    configuration returns the defaults (base_ref origin/main, include_diffstat
    true, max_commits 20, max_files 50, no note path, no project name).  A
    configuration file that exists and is not valid JSON is not treated as
    absent: loading the configuration raises the decoding error. *)
Theorem C5_defaults_when_absent_raise_when_malformed (rt : Runtime)
  (fs : gmap Path node) (repo_root : Path) :
  (Forall (fun p => fs !! p = None) (config_paths repo_root) ->
   _load_config rt fs repo_root = Ok default_config)
  /\ (forall text e,
        fs !! joinpath (joinpath repo_root (lit ".codex"))
                (lit "obsidian-change-summary.json") = Some (Text text) ->
        Json.loads (universal_newlines text) = Raise e ->
        _load_config rt fs repo_root = Raise e)
  /\ (forall text e,
        fs !! joinpath (joinpath repo_root (lit ".codex"))
                (lit "obsidian-change-summary.json") = None ->
        fs !! joinpath repo_root (lit ".obsidian-change-summary.json")
          = Some (Text text) ->
        Json.loads (universal_newlines text) = Raise e ->
        _load_config rt fs repo_root = Raise e).
Proof.
  repeat split.
  - intros H. unfold _load_config. rewrite (first_config_absent _ _ H). reflexivity.
  - intros text e H Hl. apply load_config_raw_raise.
    cbn [config_paths first_config]. unfold path_exists. rewrite H.
    rewrite (read_json_text _ _ _ H). exact Hl.
  - intros text e H1 H2 Hl. apply load_config_raw_raise.
    cbn [config_paths first_config]. unfold path_exists. rewrite H1, H2.
    rewrite (read_json_text _ _ _ H2). exact Hl.
Qed.

Lemma C5_witness :
  _load_config Sample.rt Sample.fs_empty Sample.repo_root = Ok default_config.
Proof.
  apply (proj1 (C5_defaults_when_absent_raise_when_malformed
                  Sample.rt Sample.fs_empty Sample.repo_root)).
  repeat constructor.
Defined.

(** An empty object and a partial object are read key by key. *)
Example ex_config_partial :
  _load_config Sample.rt
    (<[joinpath Sample.repo_root (lit ".obsidian-change-summary.json")
       := Text (lit "{" ++ [34] ++ lit "max_files" ++ [34] ++ lit ": 3, "
                ++ [34] ++ lit "include_diffstat" ++ [34] ++ lit ": false}")]>
       Sample.fs_empty)
    Sample.repo_root
  = Ok {| obsidian_note_path := PNone; project_name := PNone;
          base_ref := lit "origin/main"; include_diffstat := false;
          max_commits := 20; max_files := 3 |}.
Proof. vm_compute. reflexivity. Qed.

(** ** Trailing newline of an entry *)

Lemma rstrip_last (s : pystr) :
  rstrip s = [] \/ exists body c, rstrip s = body ++ [c] /\ isspace c = false.
Proof.
  induction s as [| c s IH]; [left; reflexivity |].
  cbn [rstrip].
  destruct IH as [-> | (body & d & -> & Hd)].
  - destruct (isspace c) eqn:Hc; cbn.
    + left; reflexivity.
    + right. exists [], c. split; [reflexivity | exact Hc].
  - right. exists (c :: body), d. split; [| exact Hd].
    destruct body; rewrite andb_false_r; reflexivity.
Qed.

Lemma rstrip_cons_nonspace (c : N) (s : pystr) :
  isspace c = false -> rstrip (c :: s) = c :: rstrip s.
Proof. intros H. cbn [rstrip]. rewrite H. reflexivity. Qed.



Lemma endswith_lf_snoc (s : pystr) : endswith [LF] (s ++ [LF]) = true.
Proof. unfold endswith. rewrite rev_app_distr. reflexivity. Qed.


(** ** Text-mode reading *)

Lemma universal_newlines_cr_free (s : pystr) :
  cr_free s -> universal_newlines s = s.
Proof.
  induction 1 as [| c s Hc _ IH]; [reflexivity |].
  cbn [universal_newlines].
  destruct (N.eqb_spec c CR); [contradiction |].
  rewrite IH. reflexivity.
Qed.

Lemma cr_free_app (a b : pystr) : cr_free a -> cr_free b -> cr_free (a ++ b).
Proof. apply Forall_app_2. Qed.

(** ** The appender *)









(** ** The entry point *)

Lemma main_working_tree_spec (env : Env) (repo_root : Path)
  (commits files : list pystr) (working_tree : option (list pystr)) :
  main_working_tree env repo_root commits files = Ok working_tree ->
  (wt_truthy working_tree = true ->
   commits = [] /\ files = []
   /\ exists wt, _git_status_porcelain env repo_root = Ok wt
                 /\ wt <> [] /\ working_tree = Some wt)
  /\ (forall wt, commits = [] -> files = [] ->
        _git_status_porcelain env repo_root = Ok wt ->
        working_tree = if nonempty wt then Some wt else None).
Proof.
  unfold main_working_tree. intros H. split.
  - intros Ht.
    destruct commits; [| cbn in H; injection H as <-; discriminate Ht].
    destruct files; [| cbn in H; injection H as <-; discriminate Ht].
    cbn [is_empty andb] in H.
    destruct (_git_status_porcelain env repo_root) as [wt |]; [| discriminate H].
    cbn [bind] in H. injection H as <-.
    destruct (nonempty wt) eqn:Hwt; [| discriminate Ht].
    repeat split. exists wt. repeat split. apply nonempty_true. exact Hwt.
  - intros wt -> -> Hp. cbn [is_empty andb] in H. rewrite Hp in H.
    cbn [bind] in H. injection H as <-. reflexivity.
Qed.

Lemma working_tree_lines_truthy (working_tree : option (list pystr)) :
  working_tree_lines working_tree <> [] <-> wt_truthy working_tree = true.
Proof.
  unfold working_tree_lines, wt_truthy.
  destruct working_tree as [wt |]; [| split; [congruence | discriminate]].
  destruct (nonempty wt); split; try congruence; discriminate.
Qed.

Lemma listing_lines_empty_iff heading items bound :
  listing_lines heading items bound = [] <-> items = [].
Proof.
  split; [| intros ->; reflexivity].
  unfold listing_lines. destruct items; [reflexivity | discriminate].
Qed.

(** C9. In the entry [main] formats, the block "Working tree (uncommitted)"
    is present exactly when the commit list and the file list are both empty
    and the porcelain status is not empty; it is then the heading followed by
    one bullet per status line, the line unchanged, and the entry has neither
    a Commits nor a Files section; an entry with a Commits or a Files
    section has no working-tree block. *)
Theorem C9_working_tree_only_as_fallback (rt : Runtime) (env : Env) (args : Args)
  (cfg : Config) (fs : gmap Path node) (repo_root : Path) (branch : pystr)
  (g : Gathered) :
  main_gather env args cfg fs repo_root = Ok g ->
  main_entry rt env cfg repo_root branch g
  = rstrip (join [LF]
      (header_lines rt (env_now env) repo_root (project_name cfg) branch
         (g_start_sha g) (g_end_sha g)
       ++ listing_lines commits_heading (g_commits g) (max_commits cfg)
       ++ listing_lines files_heading (g_files g) (max_files cfg)
       ++ stats_lines (g_diffstat g)
       ++ working_tree_lines (g_working_tree g))) ++ [LF]
  /\ (working_tree_lines (g_working_tree g) <> [] <->
      g_commits g = [] /\ g_files g = []
      /\ exists wt, _git_status_porcelain env repo_root = Ok wt /\ wt <> [])
  /\ (working_tree_lines (g_working_tree g) <> [] ->
      exists wt,
        _git_status_porcelain env repo_root = Ok wt
        /\ working_tree_lines (g_working_tree g)
           = [working_tree_heading] ++ map (fun line => lit "- " ++ line) wt ++ [[]]
        /\ listing_lines commits_heading (g_commits g) (max_commits cfg) = []
        /\ listing_lines files_heading (g_files g) (max_files cfg) = [])
  /\ (listing_lines commits_heading (g_commits g) (max_commits cfg) <> []
      \/ listing_lines files_heading (g_files g) (max_files cfg) <> [] ->
      working_tree_lines (g_working_tree g) = []).
Proof.
  intros Hg.
  destruct (main_gather_inv _ _ _ _ _ _ Hg) as (_ & _ & _ & _ & Hwt).
  destruct (main_working_tree_spec _ _ _ _ _ Hwt) as [Hfwd Hbwd].
  split; [reflexivity |].
  split; [| split].
  - rewrite working_tree_lines_truthy. split.
    + intros Ht. destruct (Hfwd Ht) as (Hc & Hf & wt & Hp & Hne & _).
      repeat split; try assumption. exists wt. split; assumption.
    + intros (Hc & Hf & wt & Hp & Hne).
      rewrite (Hbwd wt Hc Hf Hp).
      apply nonempty_true in Hne. rewrite Hne. cbn. exact Hne.
  - intros Ht. apply working_tree_lines_truthy in Ht.
    destruct (Hfwd Ht) as (Hc & Hf & wt & Hp & Hne & Hsome).
    exists wt. split; [exact Hp |].
    split; [| split].
    + rewrite Hsome. unfold working_tree_lines.
      apply nonempty_true in Hne. rewrite Hne. reflexivity.
    + rewrite Hc. reflexivity.
    + rewrite Hf. reflexivity.
  - intros Hsec.
    destruct (working_tree_lines (g_working_tree g)) eqn:Hl; [reflexivity |].
    exfalso.
    assert (Ht : wt_truthy (g_working_tree g) = true)
      by (apply working_tree_lines_truthy; rewrite Hl; discriminate).
    destruct (Hfwd Ht) as (Hc & Hf & _).
    destruct Hsec as [H | H]; apply H; apply listing_lines_empty_iff; assumption.
Qed.

Lemma C9_witness :
  exists wt,
    _git_status_porcelain Sample.env_dirty Sample.repo_root = Ok wt
    /\ working_tree_lines (g_working_tree Sample.gathered_dirty)
       = [working_tree_heading] ++ map (fun line => lit "- " ++ line) wt ++ [[]]
    /\ listing_lines commits_heading (g_commits Sample.gathered_dirty)
         (max_commits Sample.cfg_default) = []
    /\ listing_lines files_heading (g_files Sample.gathered_dirty)
         (max_files Sample.cfg_default) = [].
Proof.
  apply (C9_working_tree_only_as_fallback Sample.rt Sample.env_dirty Sample.args_dry
           Sample.cfg_default Sample.fs_empty Sample.repo_root (lit "main")
           Sample.gathered_dirty).
  - vm_compute. reflexivity.
  - intros H. discriminate H.
Defined.

Example ex_dirty_entry :
  main_entry Sample.rt Sample.env_dirty Sample.cfg_default Sample.repo_root
    (lit "main") Sample.gathered_dirty
  = join [LF]
      [ lit "## 2024-05-17 09:30 " ++ [8212] ++ lit " EscapeBudget (main)";
        [];
        lit "- Repo: EscapeBudget";
        lit "- Range: 0000000..2222222";
        [];
        lit "### Working tree (uncommitted)";
        lit "-  M a.py";
        lit "- ?? b.py";
        [] ].
Proof. vm_compute. reflexivity. Qed.







Example ex_main_dry_run :
  main Sample.rt Sample.env_one_commit Sample.args_dry (Sample.world Sample.fs_empty)
  = (Exit 0,
     {| fs := Sample.fs_empty;
        stdout := join [LF]
          [ lit "## 2024-05-17 09:30 " ++ [8212] ++ lit " EscapeBudget (main)";
            [];
            lit "- Repo: EscapeBudget";
            lit "- Range: 0000000..2222222";
            [];
            lit "### Commits";
            lit "- 2222222 third";
            [];
            lit "### Files";
            lit "- M a.py";
            [];
            lit "### Stats";
            lit "```";
            lit "1 file changed, 2 insertions(+)";
            lit "```";
            [] ];
        stderr := [] |}).
Proof. vm_compute. reflexivity. Qed.

(** ** The JSON codec on the state file *)

Lemma hexval_hexdigit (d : N) : d < 16 -> Json.hexval (Json.hexdigit d) = Some d.
Proof.
  intros H. unfold Json.hexval, Json.hexdigit.
  destruct (N.ltb_spec d 10).
  - destruct (N.leb_spec 48 (48 + d)); [| lia].
    destruct (N.leb_spec (48 + d) 57); [| lia]. cbn [andb]. f_equal. lia.
  - destruct (N.leb_spec 48 (87 + d)); [| lia].
    destruct (N.leb_spec (87 + d) 57); [lia |]. cbn [andb].
    destruct (N.leb_spec 97 (87 + d)); [| lia].
    destruct (N.leb_spec (87 + d) 102); [| lia]. cbn [andb]. f_equal. lia.
Qed.

Lemma hex4_to_hex4 (n : N) (rest : pystr) :
  n < 65536 -> Json.hex4 (Json.to_hex4 n ++ rest) = Some (n, rest).
Proof.
  intros H. unfold Json.to_hex4. cbn [app Json.hex4].
  rewrite !hexval_hexdigit by (apply N.mod_lt; discriminate).
  f_equal. f_equal.
  div_lia.
Qed.

Lemma scan_plain (f : nat) (c : N) (rest acc : pystr) :
  32 <= c -> c <> 34 -> c <> 92 ->
  Json.scanstring (S f) (c :: rest) acc = Json.scanstring f rest (c :: acc).
Proof.
  intros H1 H2 H3. cbn [Json.scanstring].
  destruct (N.eqb_spec c 34); [contradiction |].
  destruct (N.eqb_spec c 92); [contradiction |].
  destruct (N.leb_spec c 31); [lia |]. reflexivity.
Qed.

Lemma scan_u_escape (f : nat) (u : N) (rest acc : pystr) :
  u < 65536 -> Json.is_high_surrogate u = false ->
  Json.scanstring (S f) ([92; 117] ++ Json.to_hex4 u ++ rest) acc = Json.scanstring f rest (u :: acc).
Proof.
  intros Hu Hs. cbn [app Json.scanstring N.eqb Pos.eqb].
  rewrite (hex4_to_hex4 u rest Hu). rewrite Hs. reflexivity.
Qed.

Lemma scan_pair_escape (f : nat) (hi lo : N) (rest acc : pystr) :
  Json.is_high_surrogate hi = true -> Json.is_low_surrogate lo = true ->
  Json.scanstring (S f) ([92; 117] ++ Json.to_hex4 hi ++ [92; 117] ++ Json.to_hex4 lo ++ rest) acc
  = Json.scanstring f rest (Json.join_surrogates hi lo :: acc).
Proof.
  intros Hh Hl.
  assert (hi < 65536 /\ lo < 65536) as [Hhi Hlo].
  { unfold Json.is_high_surrogate, Json.is_low_surrogate in *.
    apply andb_true_iff in Hh as [_ Hh], Hl as [_ Hl].
    apply N.leb_le in Hh, Hl. lia. }
  cbn [app Json.scanstring N.eqb Pos.eqb].
  rewrite (hex4_to_hex4 hi _ Hhi). rewrite Hh.
  cbn [startswith N.eqb Pos.eqb andb drop]. rewrite drop_0.
  rewrite (hex4_to_hex4 lo rest Hlo). rewrite Hl. reflexivity.
Qed.

Lemma scan_escape_char (f : nat) (c : N) (rest acc : pystr) :
  is_scalar c ->
  Json.scanstring (S f) (Json.escape_char c ++ rest) acc = Json.scanstring f rest (c :: acc).
Proof.
  intros Hc. unfold Json.escape_char.
  destruct (N.eqb_spec c 92) as [-> |]; [reflexivity |].
  destruct (N.eqb_spec c 34) as [-> |]; [reflexivity |].
  destruct (N.eqb_spec c 8) as [-> |]; [reflexivity |].
  destruct (N.eqb_spec c 12) as [-> |]; [reflexivity |].
  destruct (N.eqb_spec c 10) as [-> |]; [reflexivity |].
  destruct (N.eqb_spec c 13) as [-> |]; [reflexivity |].
  destruct (N.eqb_spec c 9) as [-> |]; [reflexivity |].
  destruct (N.leb_spec 32 c); cbn [andb].
  - destruct (N.leb_spec c 126).
    + apply scan_plain; assumption.
    + destruct (N.ltb_spec c 65536).
      * apply scan_u_escape; [assumption |].
        unfold Json.is_high_surrogate, is_scalar in *.
        apply andb_false_iff.
        destruct Hc as [Hc | Hc]; [left | right]; apply N.leb_gt; lia.
      * rewrite <- !app_assoc. rewrite scan_pair_escape.
        -- f_equal. f_equal. unfold Json.join_surrogates, is_scalar in *. div_lia.
        -- unfold Json.is_high_surrogate. apply andb_true_iff.
           split; apply N.leb_le; div_lia.
        -- unfold Json.is_low_surrogate. apply andb_true_iff.
           split; apply N.leb_le; div_lia.
  - destruct (N.ltb_spec c 65536); [| lia].
    apply scan_u_escape; [assumption |].
    unfold Json.is_high_surrogate. apply andb_false_iff. left. apply N.leb_gt. lia.
Qed.

Lemma scanstring_encoded (s : pystr) :
  forall (f : nat) (rest acc : pystr),
    Forall is_scalar s -> (length s < f)%nat ->
    Json.scanstring f (concat (map Json.escape_char s) ++ 34 :: rest) acc = Ok (rev acc ++ s, rest).
Proof.
  induction s as [| c s IH]; intros f rest acc Hs Hf.
  - destruct f; [lia |]. cbn. rewrite app_nil_r. reflexivity.
  - destruct f; [cbn in Hf; lia |].
    inversion Hs; subst.
    cbn [map concat]. rewrite <- app_assoc.
    rewrite scan_escape_char by assumption.
    rewrite IH; [| assumption | cbn in Hf; lia].
    cbn [rev]. rewrite <- app_assoc. reflexivity.
Qed.

Lemma hexdigit_range (d : N) : d < 16 -> 32 <= Json.hexdigit d <= 126.
Proof. intros H. unfold Json.hexdigit. destruct (N.ltb_spec d 10); lia. Qed.

Lemma to_hex4_range (n : N) : Forall (fun x => 32 <= x <= 126) (Json.to_hex4 n).
Proof.
  unfold Json.to_hex4.
  repeat (apply List.Forall_cons; [apply hexdigit_range, N.mod_lt; discriminate |]).
  apply List.Forall_nil.
Qed.

Lemma escape_char_range (c : N) : Forall (fun x => 32 <= x <= 126) (Json.escape_char c).
Proof.
  unfold Json.escape_char.
  repeat match goal with
         | |- context [if ?b then _ else _] => destruct b eqn:?
         end;
    repeat first [ apply Forall_app_2 | apply to_hex4_range
                 | apply List.Forall_cons; [lia |] | apply List.Forall_nil ].
  apply andb_true_iff in Heqb6 as [H1 H2]. apply N.leb_le in H1, H2.
  apply List.Forall_cons; [lia | apply List.Forall_nil].
Qed.

Lemma encoded_range (s : pystr) :
  Forall (fun x => 32 <= x <= 126) (Json.encode_basestring_ascii s).
Proof.
  unfold Json.encode_basestring_ascii.
  apply Forall_app_2; [repeat constructor; lia |].
  apply Forall_app_2; [| repeat constructor; lia].
  induction s as [| c s IH]; [constructor |].
  cbn [map concat]. apply Forall_app_2; [apply escape_char_range | exact IH].
Qed.


Lemma dumps_state (rt : Runtime) (sha : pystr) :
  Json.dumps_indent2_sorted rt (PDict [(lit "last_sha", PStr sha)]) ++ [LF]
  = state_pre ++ concat (map Json.escape_char sha) ++ state_post.
Proof.
  unfold Json.dumps_indent2_sorted, Json.dumps_at, Json.encode_basestring_ascii.
  cbn [is_empty map fst snd Json.sort_by_key fold_right Json.insert_sorted join].
  repeat rewrite <- app_assoc. reflexivity.
Qed.

Lemma length_encoded (s : pystr) : (length s <= length (concat (map Json.escape_char s)))%nat.
Proof.
  induction s as [| c s IH]; [reflexivity |].
  cbn [map concat]. rewrite length_app.
  assert (1 <= length (Json.escape_char c))%nat.
  { unfold Json.escape_char.
    repeat match goal with
           | |- context [if ?b then _ else _] => destruct b
           end; cbn; lia. }
  cbn [length]. lia.
Qed.


Lemma scan_once_string (f : nat) (s1 : pystr) :
  Json.scan_once (S f) (34 :: s1)
  = bind (Json.scanstring (S (length s1)) s1 []) (fun '(str, r) => Ok (PStr str, r)).
Proof. reflexivity. Qed.

Lemma scan_once_object (f : nat) (s1 : pystr) :
  Json.scan_once (S f) (123 :: s1)
  = match Json.skip_ws s1 with
    | d :: r => if d =? 125 then Ok (PDict [], r) else Json.parse_members f (d :: r) []
    | [] => Raise JSONDecodeError
    end.
Proof. reflexivity. Qed.

Lemma parse_members_step (f : nat) (s1 : pystr) (acc : list (pystr * pyval)) :
  Json.parse_members (S f) (34 :: s1) acc
  = bind (Json.scanstring (S (length s1)) s1 [])
      (fun '(k, r) =>
         match Json.skip_ws r with
         | colon :: r1 =>
             if colon =? 58 then
               bind (Json.scan_once f (Json.skip_ws r1))
                 (fun '(v, r2) =>
                    let acc' := Json.dict_set acc k v in
                    match Json.skip_ws r2 with
                    | d :: r3 =>
                        if d =? 125 then Ok (PDict acc', r3)
                        else if d =? 44 then Json.parse_members f (Json.skip_ws r3) acc'
                        else Raise JSONDecodeError
                    | [] => Raise JSONDecodeError
                    end)
             else Raise JSONDecodeError
         | [] => Raise JSONDecodeError
         end).
Proof. reflexivity. Qed.

Lemma scanstring_last_sha (f : nat) (rest : pystr) :
  Json.scanstring (S (S (S (S (S (S (S (S (S f)))))))))
    (108 :: 97 :: 115 :: 116 :: 95 :: 115 :: 104 :: 97 :: 34 :: rest) []
  = Ok (lit "last_sha", rest).
Proof. reflexivity. Qed.

Lemma loads_state_document (sha : pystr) :
  Forall is_scalar sha ->
  Json.loads (state_pre ++ concat (map Json.escape_char sha) ++ state_post)
  = Ok (PDict [(lit "last_sha", PStr sha)]).
Proof.
  intros Hs.
  change state_pre with [123; 10; 32; 32; 34; 108; 97; 115; 116; 95; 115; 104; 97; 34; 58; 32; 34].
  change state_post with (34 :: [10; 125; 10]).
  unfold Json.loads.
  cbn [startswith N.eqb Pos.eqb andb app Json.skip_ws Json.is_json_ws orb length Nat.add].
  rewrite scan_once_object.
  cbn [N.eqb Pos.eqb Json.skip_ws Json.is_json_ws orb andb].
  rewrite parse_members_step. cbn [length]. rewrite scanstring_last_sha.
  cbn [bind Json.skip_ws Json.is_json_ws N.eqb Pos.eqb orb andb].
  rewrite scan_once_string.
  rewrite scanstring_encoded; [| exact Hs |].
  2: { rewrite length_app. pose proof (length_encoded sha). lia. }
  cbn [bind rev app Json.dict_set Json.skip_ws Json.is_json_ws N.eqb Pos.eqb orb andb is_empty].
  reflexivity.
Qed.

Lemma well_formed_scalar (s : pystr) : well_formed_text s -> Forall is_scalar s.
Proof.
  unfold well_formed_text. intros H.
  induction s as [| c s IH]; [constructor |].
  cbn [forallb] in H. apply andb_true_iff in H as [Hc Hs].
  constructor; [| exact (IH Hs)].
  unfold is_scalar_value in Hc. unfold is_scalar.
  apply orb_true_iff in Hc as [Hc | Hc].
  - left. apply N.ltb_lt. exact Hc.
  - right. apply andb_true_iff in Hc as [H1 H2].
    split; [apply N.leb_le; exact H1 | apply N.ltb_lt; exact H2].
Qed.

Lemma cr_free_printable (s : pystr) :
  Forall (fun x => 32 <= x <= 126) s -> cr_free s.
Proof.
  intros H. eapply Forall_impl; [exact H |].
  intros x [Hx _] ->. apply Hx. reflexivity.
Qed.

Lemma cr_free_state_document (sha : pystr) :
  cr_free (state_pre ++ concat (map Json.escape_char sha) ++ state_post).
Proof.
  apply cr_free_app; [| apply cr_free_app].
  - apply Forall_forall. intros c Hc ->. revert Hc.
    apply (bool_decide_eq_false_1 (CR ∈ state_pre)). vm_compute. reflexivity.
  - apply cr_free_printable.
    induction sha as [| c sha IH]; [constructor |].
    cbn [map concat]. apply Forall_app_2; [apply escape_char_range | exact IH].
  - apply Forall_forall. intros c Hc ->. revert Hc.
    apply (bool_decide_eq_false_1 (CR ∈ state_post)). vm_compute. reflexivity.
Qed.

Lemma read_written_state (rt : Runtime) (fs : gmap Path node) (repo_root : Path)
  (sha : pystr) :
  well_formed_text sha ->
  _read_json (_write_last_sha rt fs repo_root sha) (_state_path repo_root)
  = Ok (PDict [(lit "last_sha", PStr sha)]).
Proof.
  intros Hs.
  unfold _read_json, read_text, _write_last_sha, _write_json, write_text,
    _ensure_parent_dir.
  rewrite lookup_insert_eq, dumps_state.
  rewrite (universal_newlines_cr_free _ (cr_free_state_document sha)).
  rewrite (loads_state_document sha (well_formed_scalar sha Hs)).
  reflexivity.
Qed.

(** C10. For a commit identifier that is well-formed text (Unicode scalar
    values, as every decoded string is) and is not blank, writing the
    checkpoint and then loading it returns the identifier with the
    surrounding whitespace removed. *)
Theorem C10_checkpoint_round_trip (rt : Runtime) (fs : gmap Path node)
  (repo_root : Path) (sha : pystr) :
  well_formed_text sha ->
  strip sha <> [] ->
  _load_last_sha (_write_last_sha rt fs repo_root sha) repo_root
  = Ok (Some (strip sha)).
Proof.
  intros Hs Hne. unfold _load_last_sha.
  rewrite (read_written_state rt fs repo_root sha Hs).
  cbn [bind py_get Json.dict_lookup].
  unfold Json.eqb_pystr. rewrite bool_decide_eq_true_2 by reflexivity.
  apply nonempty_true in Hne. rewrite Hne. reflexivity.
Qed.

Lemma C10_witness :
  _load_last_sha
    (_write_last_sha Sample.rt Sample.fs_bad_state Sample.repo_root
       (lit "  2222222bbbb" ++ [LF]))
    Sample.repo_root
  = Ok (Some (strip (lit "  2222222bbbb" ++ [LF]))).
Proof.
  apply (C10_checkpoint_round_trip Sample.rt Sample.fs_bad_state Sample.repo_root
           (lit "  2222222bbbb" ++ [LF])).
  - reflexivity.
  - intros H. discriminate H.
Defined.

Example ex_state_file_text :
  _write_last_sha Sample.rt Sample.fs_empty Sample.repo_root (lit "3333333cccc")
  = Sample.fs_state.
Proof. reflexivity. Qed.

(** Two adjacent surrogate code points are not well-formed text, and the
    round trip merges them into one character. *)
Example ex_surrogates_merge :
  _load_last_sha
    (_write_last_sha Sample.rt Sample.fs_empty Sample.repo_root [55357; 56832])
    Sample.repo_root
  = Ok (Some [128512]).
Proof. vm_compute. reflexivity. Qed.

(** ** The scanner never runs out of fuel *)

Lemma skip_ws_length (s : pystr) : (length (Json.skip_ws s) <= length s)%nat.
Proof.
  induction s as [| c s IH]; [reflexivity |].
  cbn [Json.skip_ws]. destruct (Json.is_json_ws c); cbn [length]; lia.
Qed.

Lemma hex4_length (s r : pystr) (u : N) :
  Json.hex4 s = Some (u, r) -> length s = (4 + length r)%nat.
Proof.
  unfold Json.hex4.
  destruct s as [| a [| b [| c [| d s']]]]; try discriminate.
  destruct (Json.hexval a), (Json.hexval b), (Json.hexval c), (Json.hexval d);
    try discriminate.
  intros [= _ <-]. reflexivity.
Qed.

Lemma startswith_length (p s : pystr) :
  startswith p s = true -> (length p <= length s)%nat.
Proof.
  revert s. induction p as [| a p IH]; intros s H; [cbn; lia |].
  destruct s as [| b s]; [discriminate |].
  cbn [startswith] in H. apply andb_true_iff in H as [_ H].
  specialize (IH s H). cbn [length]. lia.
Qed.

Lemma scanstring_rest (f : nat) :
  forall s acc v r, Json.scanstring f s acc = Ok (v, r) -> (length r < length s)%nat.
Proof.
  induction f as [| f IH]; intros s acc v r; [discriminate |].
  cbn [Json.scanstring].
  destruct s as [| c s1]; [discriminate |].
  destruct (c =? 34); [intros [= _ <-]; cbn; lia |].
  destruct (c =? 92).
  - destruct s1 as [| e s2]; [discriminate |].
    destruct (e =? 117).
    + destruct (Json.hex4 s2) as [[u s3] |] eqn:H4; [| discriminate].
      apply hex4_length in H4.
      destruct (Json.is_high_surrogate u && startswith [92; 117] s3) eqn:Hp.
      * apply andb_true_iff in Hp as [_ Hp]. apply startswith_length in Hp.
        destruct (Json.hex4 (drop 2 s3)) as [[u2 s5] |] eqn:H5; [| discriminate].
        apply hex4_length in H5. rewrite length_drop in H5.
        destruct (Json.is_low_surrogate u2); intros H; apply IH in H;
          cbn [length] in *; lia.
      * intros H; apply IH in H. cbn [length]. lia.
    + destruct (Json.unescape e); [| discriminate].
      intros H; apply IH in H. cbn [length]. lia.
  - destruct (c <=? 31); [discriminate |].
    intros H; apply IH in H. cbn [length]. lia.
Qed.

Lemma scanstring_fuel (f : nat) :
  forall s acc, (length s < f)%nat -> Json.scanstring f s acc <> Raise RecursionError.
Proof.
  induction f as [| f IH]; intros s acc Hf; [lia |].
  cbn [Json.scanstring].
  destruct s as [| c s1]; [discriminate |].
  cbn [length] in Hf.
  destruct (c =? 34); [discriminate |].
  destruct (c =? 92).
  - destruct s1 as [| e s2]; [discriminate |].
    cbn [length] in Hf.
    destruct (e =? 117).
    + destruct (Json.hex4 s2) as [[u s3] |] eqn:H4; [| discriminate].
      apply hex4_length in H4.
      destruct (Json.is_high_surrogate u && startswith [92; 117] s3) eqn:Hp.
      * destruct (Json.hex4 (drop 2 s3)) as [[u2 s5] |] eqn:H5; [| discriminate].
        apply hex4_length in H5. rewrite length_drop in H5.
        destruct (Json.is_low_surrogate u2); apply IH; lia.
      * apply IH. lia.
    + destruct (Json.unescape e); [| discriminate]. apply IH. lia.
  - destruct (c <=? 31); [discriminate |]. apply IH. lia.
Qed.

Lemma take_digits_length (s ds r : pystr) :
  Json.take_digits s = (ds, r) -> (length r <= length s)%nat.
Proof.
  revert ds r. induction s as [| c s IH]; intros ds r.
  - intros [= _ <-]. reflexivity.
  - cbn [Json.take_digits]. destruct (Json.is_digit c).
    + destruct (Json.take_digits s) as [ds' r'] eqn:H. intros [= _ <-].
      specialize (IH _ _ eq_refl). cbn [length]. lia.
    + intros [= _ <-]. reflexivity.
Qed.

Lemma match_number_rest (s r : pystr) (v : pyval) :
  Json.match_number s = Some (v, r) -> (length r < length s)%nat.
Proof.
  unfold Json.match_number.
  set (p1 := match s with
             | c :: s' => if c =? 45 then (true, s') else (false, s)
             | [] => (false, s)
             end).
  assert (H1 : (length (snd p1) <= length s)%nat).
  { subst p1. destruct s as [| c s']; [reflexivity |].
    destruct (c =? 45); cbn [snd length]; lia. }
  destruct p1 as [neg s1]. cbn [snd] in H1.
  set (p2 := match s1 with
             | c :: s2 =>
                 if (49 <=? c) && (c <=? 57)
                 then let (ds, r0) := Json.take_digits s2 in (c :: ds, r0)
                 else if c =? 48 then ([c], s2) else ([], s1)
             | [] => ([], s1)
             end).
  assert (H2 : is_empty (fst p2) = false -> (length (snd p2) < length s1)%nat).
  { subst p2. destruct s1 as [| c s2]; [discriminate |].
    destruct ((49 <=? c) && (c <=? 57)).
    - destruct (Json.take_digits s2) as [ds r0] eqn:Ht.
      apply take_digits_length in Ht. cbn [snd length]. lia.
    - destruct (c =? 48); [cbn [snd length]; lia | discriminate]. }
  destruct p2 as [intd s3]. cbn [fst snd] in H2.
  destruct (is_empty intd) eqn:Hi; [discriminate |]. specialize (H2 eq_refl).
  set (p3 := match s3 with
             | dot :: d :: r0 =>
                 if (dot =? 46) && Json.is_digit d
                 then let (fd, r') := Json.take_digits r0 in (dot :: d :: fd, r')
                 else ([], s3)
             | _ => ([], s3)
             end).
  assert (H3 : (length (snd p3) <= length s3)%nat).
  { subst p3. destruct s3 as [| dot [| d r0]]; try reflexivity.
    destruct ((dot =? 46) && Json.is_digit d); [| reflexivity].
    destruct (Json.take_digits r0) as [fd r'] eqn:Ht.
    apply take_digits_length in Ht. cbn [snd length]. lia. }
  destruct p3 as [frac s4]. cbn [snd] in H3.
  set (p4 := match s4 with
             | e :: r0 =>
                 if (e =? 101) || (e =? 69)
                 then
                   let (sg, r1) :=
                     match r0 with
                     | g :: r' => if (g =? 43) || (g =? 45) then ([g], r') else ([], r0)
                     | [] => ([], r0)
                     end in
                   let (ed, r2) := Json.take_digits r1 in
                   if is_empty ed then ([], s4) else (e :: sg ++ ed, r2)
                 else ([], s4)
             | [] => ([], s4)
             end).
  assert (H4 : (length (snd p4) <= length s4)%nat).
  { subst p4. destruct s4 as [| e r0]; [reflexivity |].
    destruct ((e =? 101) || (e =? 69)); [| reflexivity].
    set (q := match r0 with
              | g :: r' => if (g =? 43) || (g =? 45) then ([g], r') else ([], r0)
              | [] => ([], r0)
              end).
    assert (Hq : (length (snd q) <= length r0)%nat).
    { subst q. destruct r0 as [| g r']; [reflexivity |].
      destruct ((g =? 43) || (g =? 45)); cbn [snd length]; lia. }
    destruct q as [sg r1]. cbn [snd] in Hq.
    destruct (Json.take_digits r1) as [ed r2] eqn:Ht.
    apply take_digits_length in Ht.
    destruct (is_empty ed); cbn [snd length]; lia. }
  destruct p4 as [ex s5]. cbn [snd] in H4.
  destruct (is_empty frac && is_empty ex); intros [= _ <-]; lia.
Qed.

Lemma scan_rest (f : nat) :
  (forall s v r, Json.scan_once f s = Ok (v, r) -> (length r < length s)%nat)
  /\ (forall s acc v r,
        Json.parse_members f s acc = Ok (v, r) -> (length r < length s)%nat)
  /\ (forall s acc v r,
        Json.parse_items f s acc = Ok (v, r) -> (length r < length s)%nat).
Proof.
  induction f as [| f (IHs & IHm & IHi)]; [repeat split; discriminate |].
  repeat split.
  - intros s v r. cbn [Json.scan_once].
    destruct s as [| c s1]; [discriminate |].
    destruct (c =? 34).
    { destruct (Json.scanstring (S (length s1)) s1 []) as [[str r0] |] eqn:Hs;
        cbn [bind]; [| discriminate].
      intros [= _ <-]. apply scanstring_rest in Hs. cbn [length]. lia. }
    destruct (c =? 123).
    { pose proof (skip_ws_length s1) as Hw.
      destruct (Json.skip_ws s1) as [| d r0]; [discriminate |].
      destruct (d =? 125); [intros [= _ <-] | intros H; apply IHm in H];
        cbn [length] in *; lia. }
    destruct (c =? 91).
    { pose proof (skip_ws_length s1) as Hw.
      destruct (Json.skip_ws s1) as [| d r0]; [discriminate |].
      destruct (d =? 93); [intros [= _ <-] | intros H; apply IHi in H];
        cbn [length] in *; lia. }
    repeat match goal with
           | |- context [if startswith ?p ?s then _ else _] =>
               let H := fresh "Hp" in
               destruct (startswith p s) eqn:H;
               [ apply startswith_length in H; intros [= _ <-];
                 rewrite length_drop; cbn [lit length] in *; lia |]
           end.
    destruct (Json.match_number (c :: s1)) as [[v' r'] |] eqn:Hm; [| discriminate].
    intros [= _ <-]. apply match_number_rest in Hm. exact Hm.
  - intros s acc v r. cbn [Json.parse_members].
    destruct s as [| q s1]; [discriminate |].
    destruct (q =? 34); [| discriminate].
    destruct (Json.scanstring (S (length s1)) s1 []) as [[k r0] |] eqn:Hs;
      cbn [bind]; [| discriminate].
    apply scanstring_rest in Hs.
    pose proof (skip_ws_length r0) as Hw0.
    destruct (Json.skip_ws r0) as [| colon r1]; [discriminate |].
    destruct (colon =? 58); [| discriminate].
    pose proof (skip_ws_length r1) as Hw1.
    destruct (Json.scan_once f (Json.skip_ws r1)) as [[v2 r2] |] eqn:Hv;
      cbn [bind]; [| discriminate].
    apply IHs in Hv.
    pose proof (skip_ws_length r2) as Hw2.
    destruct (Json.skip_ws r2) as [| d r3]; [discriminate |].
    destruct (d =? 125); [intros [= _ <-]; cbn [length] in *; lia |].
    destruct (d =? 44); [| discriminate].
    pose proof (skip_ws_length r3) as Hw3.
    intros H; apply IHm in H. cbn [length] in *. lia.
  - intros s acc v r. cbn [Json.parse_items].
    destruct (Json.scan_once f s) as [[v1 r1] |] eqn:Hv; cbn [bind]; [| discriminate].
    apply IHs in Hv.
    pose proof (skip_ws_length r1) as Hw1.
    destruct (Json.skip_ws r1) as [| d r2]; [discriminate |].
    destruct (d =? 93); [intros [= _ <-]; cbn [length] in *; lia |].
    destruct (d =? 44); [| discriminate].
    pose proof (skip_ws_length r2) as Hw2.
    intros H; apply IHi in H. cbn [length] in *. lia.
Qed.

Lemma scan_fuel (f : nat) :
  (forall s, (2 * length s < f)%nat -> Json.scan_once f s <> Raise RecursionError)
  /\ (forall s acc, (2 * length s < f)%nat ->
        Json.parse_members f s acc <> Raise RecursionError)
  /\ (forall s acc, (2 * length s + 1 < f)%nat ->
        Json.parse_items f s acc <> Raise RecursionError).
Proof.
  induction f as [| f (IHs & IHm & IHi)]; [repeat split; intros; lia |].
  repeat split.
  - intros s Hf. cbn [Json.scan_once].
    destruct s as [| c s1]; [discriminate |]. cbn [length] in Hf.
    destruct (c =? 34).
    { pose proof (scanstring_fuel (S (length s1)) s1 [] (Nat.lt_succ_diag_r _)) as Hs.
      destruct (Json.scanstring (S (length s1)) s1 []) as [[str r0] | e];
        cbn [bind]; [discriminate | congruence]. }
    destruct (c =? 123).
    { pose proof (skip_ws_length s1) as Hw.
      destruct (Json.skip_ws s1) as [| d r0]; [discriminate |].
      destruct (d =? 125); [discriminate |]. apply IHm. cbn [length] in *. lia. }
    destruct (c =? 91).
    { pose proof (skip_ws_length s1) as Hw.
      destruct (Json.skip_ws s1) as [| d r0]; [discriminate |].
      destruct (d =? 93); [discriminate |]. apply IHi. cbn [length] in *. lia. }
    repeat match goal with
           | |- context [if startswith ?p ?s then _ else _] =>
               destruct (startswith p s); [discriminate |]
           end.
    destruct (Json.match_number (c :: s1)) as [[v' r'] |]; discriminate.
  - intros s acc Hf. cbn [Json.parse_members].
    destruct s as [| q s1]; [discriminate |]. cbn [length] in Hf.
    destruct (q =? 34); [| discriminate].
    pose proof (scanstring_fuel (S (length s1)) s1 [] (Nat.lt_succ_diag_r _)) as Hs.
    destruct (Json.scanstring (S (length s1)) s1 []) as [[k r0] | e] eqn:Hk;
      cbn [bind]; [| congruence].
    apply scanstring_rest in Hk.
    pose proof (skip_ws_length r0) as Hw0.
    destruct (Json.skip_ws r0) as [| colon r1]; [discriminate |].
    destruct (colon =? 58); [| discriminate].
    pose proof (skip_ws_length r1) as Hw1.
    assert (Hv' : Json.scan_once f (Json.skip_ws r1) <> Raise RecursionError)
      by (apply IHs; cbn [length] in *; lia).
    destruct (Json.scan_once f (Json.skip_ws r1)) as [[v2 r2] | e] eqn:Hv;
      cbn [bind]; [| congruence].
    apply (proj1 (scan_rest f)) in Hv.
    pose proof (skip_ws_length r2) as Hw2.
    destruct (Json.skip_ws r2) as [| d r3]; [discriminate |].
    destruct (d =? 125); [discriminate |].
    destruct (d =? 44); [| discriminate].
    pose proof (skip_ws_length r3) as Hw3.
    apply IHm. cbn [length] in *. lia.
  - intros s acc Hf. cbn [Json.parse_items].
    assert (Hv' : Json.scan_once f s <> Raise RecursionError) by (apply IHs; lia).
    destruct (Json.scan_once f s) as [[v1 r1] | e] eqn:Hv; cbn [bind]; [| congruence].
    apply (proj1 (scan_rest f)) in Hv.
    pose proof (skip_ws_length r1) as Hw1.
    destruct (Json.skip_ws r1) as [| d r2]; [discriminate |].
    destruct (d =? 93); [discriminate |].
    destruct (d =? 44); [| discriminate].
    pose proof (skip_ws_length r2) as Hw2.
    apply IHi. cbn [length] in *. lia.
Qed.

Lemma loads_fuel_adequate (s : pystr) : Json.loads s <> Raise RecursionError.
Proof.
  unfold Json.loads.
  destruct (startswith [65279] s); [discriminate |].
  pose proof (skip_ws_length s) as Hw.
  assert (H : Json.scan_once (S (length s + length s)) (Json.skip_ws s)
              <> Raise RecursionError)
    by (apply (proj1 (scan_fuel _)); lia).
  destruct (Json.scan_once (S (length s + length s)) (Json.skip_ws s)) as [[v r] | e];
    cbn [bind]; [| congruence].
  destruct (is_empty (Json.skip_ws r)); discriminate.
Qed.

(** * The other functions *)

(** ** Stripping *)

Lemma lstrip_idem (s : pystr) : lstrip (lstrip s) = lstrip s.
Proof.
  induction s as [| c s IH]; [reflexivity |].
  cbn [lstrip]. destruct (isspace c) eqn:Hc; [exact IH |].
  cbn [lstrip]. rewrite Hc. reflexivity.
Qed.

Lemma rstrip_app_stable (a b : pystr) :
  rstrip b = b -> b <> [] -> rstrip (a ++ b) = a ++ b.
Proof.
  intros Hb Hne. induction a as [| x a IH]; [exact Hb |].
  cbn [app rstrip]. rewrite IH.
  destruct (a ++ b) eqn:Hab.
  - destruct a; [contradiction | discriminate].
  - rewrite andb_false_r. reflexivity.
Qed.

Lemma rstrip_idem (s : pystr) : rstrip (rstrip s) = rstrip s.
Proof.
  destruct (rstrip_last s) as [-> | (body & c & -> & Hc)]; [reflexivity |].
  apply rstrip_app_stable; [| discriminate].
  cbn. rewrite Hc. reflexivity.
Qed.

Lemma rstrip_cons_inv (x : N) (t : pystr) :
  rstrip (x :: t) = x :: t -> rstrip t = t.
Proof.
  cbn [rstrip]. destruct (isspace x && is_empty (rstrip t)); [discriminate |].
  intros [= H]. exact H.
Qed.

Lemma rstrip_lstrip_stable (t : pystr) : rstrip t = t -> rstrip (lstrip t) = lstrip t.
Proof.
  induction t as [| x t IH]; intros H; [reflexivity |].
  cbn [lstrip]. destruct (isspace x); [| exact H].
  apply IH. exact (rstrip_cons_inv _ _ H).
Qed.

Lemma strip_trimmed (s : pystr) : trimmed (strip s).
Proof.
  unfold trimmed, strip. split; [apply lstrip_idem |].
  apply rstrip_lstrip_stable, rstrip_idem.
Qed.

Lemma trimmed_strip (s : pystr) : trimmed s -> strip s = s.
Proof. intros [Hl Hr]. unfold strip. rewrite Hr. exact Hl. Qed.

Lemma strip_idem (s : pystr) : strip (strip s) = strip s.
Proof. apply trimmed_strip, strip_trimmed. Qed.

Lemma lstrip_Forall (P : N -> Prop) (s : pystr) : Forall P s -> Forall P (lstrip s).
Proof.
  induction 1 as [| c s Hc Hs IH]; [constructor |].
  cbn [lstrip]. destruct (isspace c); [exact IH | constructor; assumption].
Qed.

Lemma rstrip_Forall (P : N -> Prop) (s : pystr) : Forall P s -> Forall P (rstrip s).
Proof.
  induction 1 as [| c s Hc Hs IH]; [constructor |].
  cbn [rstrip]. destruct (isspace c && is_empty (rstrip s)); constructor; assumption.
Qed.

Lemma strip_Forall (P : N -> Prop) (s : pystr) : Forall P s -> Forall P (strip s).
Proof. intros H. apply lstrip_Forall, rstrip_Forall, H. Qed.

(** ** Splitting into lines *)

Lemma splitlines_from_line (l : pystr) :
  forall cur rest,
    one_line l ->
    splitlines_from cur (l ++ LF :: rest) = (rev cur ++ l) :: splitlines_from [] rest.
Proof.
  induction l as [| c l IH]; intros cur rest Hl.
  - cbn. rewrite app_nil_r. destruct rest; reflexivity.
  - inversion Hl as [| ? ? Hc Hl']; subst.
    cbn [app splitlines_from]. rewrite Hc, (IH (c :: cur) rest Hl').
    cbn [rev]. rewrite <- app_assoc. reflexivity.
Qed.

Lemma splitlines_printed (lines : list pystr) :
  Forall one_line lines -> splitlines (printed lines) = lines.
Proof.
  unfold splitlines, printed.
  induction 1 as [| l lines Hl _ IH]; [reflexivity |].
  cbn [map concat]. rewrite <- app_assoc. cbn [app].
  rewrite (splitlines_from_line l [] _ Hl), IH. reflexivity.
Qed.

Lemma splitlines_from_one_line (n : nat) :
  forall s cur,
    (length s <= n)%nat -> one_line cur ->
    Forall one_line (splitlines_from cur s).
Proof.
  induction n as [| n IH]; intros s cur Hn Hcur.
  - destruct s; [| cbn in Hn; lia].
    cbn. destruct cur; constructor; [| constructor].
    apply Forall_rev. exact Hcur.
  - destruct s as [| c s1].
    + cbn. destruct cur; constructor; [| constructor].
      apply Forall_rev. exact Hcur.
    + cbn [length] in Hn. cbn [splitlines_from].
      destruct (is_linebreak c) eqn:Hc.
      * constructor; [apply Forall_rev; exact Hcur |].
        destruct s1 as [| d s2]; [apply IH; [cbn; lia | constructor] |].
        cbn [length] in Hn.
        destruct ((c =? CR) && (d =? LF)); apply IH;
          try constructor; cbn [length]; lia.
      * apply IH; [lia |]. constructor; assumption.
Qed.

Lemma splitlines_one_line (s : pystr) : Forall one_line (splitlines s).
Proof. apply (splitlines_from_one_line (length s)); [lia | constructor]. Qed.

(** ** The query facade *)

Lemma run_git_ok (env : Env) (args : list pystr) (cwd : Path) (out err : pystr) :
  env_git env args cwd = (0%Z, out, err) -> _run_git env args cwd = Ok out.
Proof. intros H. unfold _run_git. rewrite H. reflexivity. Qed.

Lemma stripped_query (env : Env) (args : list pystr) (cwd : Path) (s : pystr) :
  bind (_run_git env args cwd) (fun out => Ok (strip out)) = Ok s -> strip s = s.
Proof.
  destruct (_run_git env args cwd) as [out |]; cbn [bind]; [| discriminate].
  intros [= <-]. apply strip_idem.
Qed.

(** X1. What the facade returns for HEAD, the branch name, the merge-base and
    the diffstat has no surrounding whitespace: stripping it again changes
    nothing. *)
Theorem facade_results_trimmed (env : Env) (cwd : Path) :
  (forall s, _head_sha env cwd = Ok s -> strip s = s)
  /\ (forall s, _branch_name env cwd = Ok s -> strip s = s)
  /\ (forall base_ref s, _merge_base env cwd base_ref = Ok s -> strip s = s)
  /\ (forall start_sha end_sha s,
        _git_shortstat env cwd start_sha end_sha = Ok s -> strip s = s).
Proof.
  repeat split; intros; eapply stripped_query; eassumption.
Qed.

Lemma facade_results_trimmed_witness :
  strip Sample.head = Sample.head.
Proof.
  apply (proj1 (facade_results_trimmed Sample.env_clean Sample.repo_root)).
  vm_compute. reflexivity.
Defined.

Lemma log_lines_of (lines : list pystr) :
  Forall one_line lines ->
  Forall (fun l => l <> [] /\ strip l = l /\ one_line l)
    (map strip (List.filter (fun ln => nonempty (strip ln)) lines)).
Proof.
  induction 1 as [| l lines Hl _ IH]; [constructor |].
  cbn [List.filter]. destruct (nonempty (strip l)) eqn:Hn; [| exact IH].
  cbn [map]. constructor; [| exact IH].
  split; [apply nonempty_true; exact Hn |].
  split; [apply strip_idem | apply strip_Forall; exact Hl].
Qed.

(** X2. Every commit line [_git_log_oneline] returns is non-empty, has no
    surrounding whitespace and holds no line boundary. *)
Theorem git_log_lines_clean (env : Env) (cwd : Path) (start_sha end_sha : pystr)
  (lines : list pystr) :
  _git_log_oneline env cwd start_sha end_sha = Ok lines ->
  Forall (fun l => l <> [] /\ strip l = l /\ one_line l) lines.
Proof.
  unfold _git_log_oneline. case_bind. intros [= <-].
  apply log_lines_of, splitlines_one_line.
Qed.

Lemma git_log_lines_clean_witness :
  Forall (fun l => l <> [] /\ strip l = l /\ one_line l) [lit "2222222 third"].
Proof.
  apply (git_log_lines_clean Sample.env_one_commit Sample.repo_root
           (lit "0000000ba5e") Sample.head).
  vm_compute. reflexivity.
Defined.

Lemma filter_map_clean (f : pystr -> pystr) (lines : list pystr) :
  Forall (fun l => nonempty (strip l) = true /\ f l = l) lines ->
  map f (List.filter (fun ln => nonempty (strip ln)) lines) = lines.
Proof.
  induction 1 as [| l lines [Hn Hf] _ IH]; [reflexivity |].
  cbn [List.filter]. rewrite Hn. cbn [map]. rewrite Hf, IH. reflexivity.
Qed.

(** X3. When [git log] prints one clean line per commit (non-empty, no
    surrounding whitespace, no line boundary inside), [_git_log_oneline]
    returns exactly these lines, in the order printed. *)
Theorem git_log_printed_lines (env : Env) (cwd : Path) (start_sha end_sha : pystr)
  (lines : list pystr) (err : pystr) :
  env_git env
    [lit "log"; lit "--no-decorate"; lit "--format=%h %s"; range_arg start_sha end_sha]
    cwd = (0%Z, printed lines, err) ->
  Forall (fun l => l <> [] /\ strip l = l /\ one_line l) lines ->
  _git_log_oneline env cwd start_sha end_sha = Ok lines.
Proof.
  intros Hgit Hl. unfold _git_log_oneline.
  rewrite (run_git_ok _ _ _ _ _ Hgit). cbn [bind].
  rewrite splitlines_printed.
  - rewrite filter_map_clean; [reflexivity |].
    eapply Forall_impl; [exact Hl |].
    intros l (Hne & Hs & _). split; [| exact Hs].
    rewrite Hs. apply nonempty_true. exact Hne.
  - eapply Forall_impl; [exact Hl |]. intros l (_ & _ & H). exact H.
Qed.

(** X4. Every status line [_git_status_porcelain] returns is non-blank, has
    no trailing whitespace and holds no line boundary. *)
Theorem git_status_lines_clean (env : Env) (cwd : Path) (lines : list pystr) :
  _git_status_porcelain env cwd = Ok lines ->
  Forall (fun l => strip l <> [] /\ rstrip l = l /\ one_line l) lines.
Proof.
  unfold _git_status_porcelain. case_bind. intros [= <-].
  pose proof (splitlines_one_line a) as H.
  induction H as [| l ls Hl _ IH]; [constructor |].
  cbn [List.filter]. destruct (nonempty (strip l)) eqn:Hn; [| exact IH].
  cbn [map]. constructor; [| exact IH].
  split; [| split; [apply rstrip_idem | apply rstrip_Forall; exact Hl]].
  unfold strip. rewrite rstrip_idem. apply nonempty_true. exact Hn.
Qed.

(** X5. When [git status --porcelain] prints clean lines (not blank, no
    trailing whitespace, no line boundary inside), [_git_status_porcelain]
    returns exactly these lines, in order and with their leading blanks. *)
Theorem git_status_printed_lines (env : Env) (cwd : Path) (lines : list pystr)
  (err : pystr) :
  env_git env [lit "status"; lit "--porcelain"] cwd = (0%Z, printed lines, err) ->
  Forall (fun l => strip l <> [] /\ rstrip l = l /\ one_line l) lines ->
  _git_status_porcelain env cwd = Ok lines.
Proof.
  intros Hgit Hl. unfold _git_status_porcelain.
  rewrite (run_git_ok _ _ _ _ _ Hgit). cbn [bind].
  rewrite splitlines_printed.
  - rewrite filter_map_clean; [reflexivity |].
    eapply Forall_impl; [exact Hl |].
    intros l (Hne & Hs & _). split; [| exact Hs].
    apply nonempty_true. exact Hne.
  - eapply Forall_impl; [exact Hl |]. intros l (_ & _ & H). exact H.
Qed.

Lemma one_line_sample : one_line (lit "2222222 third").
Proof. repeat constructor. Defined.

Lemma git_log_printed_lines_witness :
  _git_log_oneline Sample.env_one_commit Sample.repo_root (lit "0000000ba5e") Sample.head
  = Ok [lit "2222222 third"].
Proof.
  apply (git_log_printed_lines Sample.env_one_commit Sample.repo_root
           (lit "0000000ba5e") Sample.head [lit "2222222 third"] []).
  - reflexivity.
  - constructor; [| constructor].
    split; [intros H; discriminate H |]. split; [reflexivity | exact one_line_sample].
Defined.

Lemma git_status_lines_clean_witness :
  Forall (fun l => strip l <> [] /\ rstrip l = l /\ one_line l)
    [lit " M a.py"; lit "?? b.py"].
Proof.
  apply (git_status_lines_clean Sample.env_dirty Sample.repo_root).
  vm_compute. reflexivity.
Defined.

Lemma git_status_printed_lines_witness :
  _git_status_porcelain Sample.env_dirty Sample.repo_root
  = Ok [lit " M a.py"; lit "?? b.py"].
Proof.
  apply (git_status_printed_lines Sample.env_dirty Sample.repo_root
           [lit " M a.py"; lit "?? b.py"] []).
  - reflexivity.
  - constructor; [| constructor; [| constructor]];
      (split; [intros H; discriminate H |]; split; [reflexivity | repeat constructor]).
Defined.

(** ** Splitting on a separator *)

Lemma split_on_free (sep : N) (a : pystr) :
  Forall (fun c => c <> sep) a -> split_on sep a = [a].
Proof.
  induction 1 as [| c a Hc _ IH]; [reflexivity |].
  cbn [split_on]. rewrite IH.
  destruct (N.eqb_spec c sep); [contradiction | reflexivity].
Qed.

Lemma split_on_cons_sep (sep : N) (b : pystr) :
  split_on sep (sep :: b) = [] :: split_on sep b.
Proof.
  cbn [split_on]. rewrite N.eqb_refl.
  destruct (split_on sep b) eqn:H; [| reflexivity].
  destruct b; cbn in H; [discriminate |].
  destruct (split_on sep b); [discriminate |].
  destruct (n =? sep); discriminate.
Qed.

Lemma split_on_field (sep : N) (a b : pystr) :
  Forall (fun c => c <> sep) a ->
  split_on sep (a ++ sep :: b) = a :: split_on sep b.
Proof.
  induction 1 as [| c a Hc _ IH].
  - cbn [app]. rewrite split_on_cons_sep. reflexivity.
  - cbn [app split_on]. rewrite IH.
    destruct (N.eqb_spec c sep); [contradiction | reflexivity].
Qed.

Lemma trimmed_nonempty_strip (s : pystr) :
  trimmed s -> s <> [] -> nonempty (strip s) = true.
Proof. intros Ht Hne. rewrite (trimmed_strip _ Ht). apply nonempty_true. exact Hne. Qed.

(** X6. One line of [git diff --name-status]: a status and one path, separated
    by a tab, give the status, a blank and the path; a status that starts
    with R or C and two paths give the status and old path, an arrow and the
    new path; with any other status the second path is dropped.  The fields are
    taken as printed: no tab inside, no surrounding whitespace, not empty. *)
Theorem name_status_line_fields (status p0 p1 : pystr) :
  trimmed status -> tab_free status -> status <> [] ->
  trimmed p0 -> tab_free p0 -> p0 <> [] ->
  trimmed p1 -> tab_free p1 -> p1 <> [] ->
  name_status_line (status ++ [TAB] ++ p0) = Some (status ++ lit " " ++ p0)
  /\ name_status_line (status ++ [TAB] ++ p0 ++ [TAB] ++ p1)
     = Some (if startswith (lit "R") status || startswith (lit "C") status
             then status ++ lit " " ++ p0 ++ lit " -> " ++ p1
             else status ++ lit " " ++ p0).
Proof.
  intros Hs Hst Hsn H0 H0t H0n H1 H1t H1n.
  assert (Hne : forall t, is_empty (status ++ t) = false)
    by (intros t; destruct status; [contradiction | reflexivity]).
  split; unfold name_status_line.
  - rewrite (rstrip_app_stable status ([TAB] ++ p0)).
    2: { apply (rstrip_app_stable [TAB] p0); [apply H0 | exact H0n]. }
    2: { discriminate. }
    rewrite Hne. cbn [app].
    rewrite (split_on_field TAB status p0 Hst), (split_on_free TAB p0 H0t).
    cbn [hd tl map List.filter].
    rewrite (trimmed_strip _ Hs), (trimmed_strip _ H0).
    apply nonempty_true in H0n. rewrite H0n. reflexivity.
  - rewrite (rstrip_app_stable status ([TAB] ++ p0 ++ [TAB] ++ p1)).
    2: { apply (rstrip_app_stable [TAB]); [| destruct p0; discriminate].
         apply (rstrip_app_stable p0); [| discriminate].
         apply (rstrip_app_stable [TAB] p1); [apply H1 | exact H1n]. }
    2: { discriminate. }
    rewrite Hne. cbn [app].
    rewrite (split_on_field TAB status _ Hst), (split_on_field TAB p0 p1 H0t),
      (split_on_free TAB p1 H1t).
    cbn [hd tl map List.filter].
    rewrite (trimmed_strip _ Hs), (trimmed_strip _ H0), (trimmed_strip _ H1).
    apply nonempty_true in H0n, H1n. rewrite H0n, H1n.
    destruct (startswith (lit "R") status); [reflexivity |].
    destruct (startswith (lit "C") status); reflexivity.
Qed.

Lemma name_status_line_fields_witness :
  name_status_line (lit "R100" ++ [TAB] ++ lit "old.py")
  = Some (lit "R100" ++ lit " " ++ lit "old.py")
  /\ name_status_line (lit "R100" ++ [TAB] ++ lit "old.py" ++ [TAB] ++ lit "new.py")
     = Some (if startswith (lit "R") (lit "R100") || startswith (lit "C") (lit "R100")
             then lit "R100" ++ lit " " ++ lit "old.py" ++ lit " -> " ++ lit "new.py"
             else lit "R100" ++ lit " " ++ lit "old.py").
Proof.
  apply name_status_line_fields;
    first [ split; reflexivity
          | intros H; discriminate H
          | repeat (constructor; [intros H; discriminate H |]); constructor ].
Defined.

(** ** Paths *)

Lemma split_on_last (sep : N) (d n : pystr) :
  Forall (fun c => c <> sep) n ->
  exists first front, split_on sep (d ++ sep :: n) = first :: front ++ [n].
Proof.
  intros Hn. induction d as [| x d (first & front & IH)].
  - exists [], []. cbn [app]. rewrite split_on_cons_sep, (split_on_free sep n Hn).
    reflexivity.
  - cbn [app split_on]. rewrite IH.
    destruct (x =? sep).
    + exists [], (first :: front). reflexivity.
    + exists (x :: first), front. reflexivity.
Qed.

Lemma filter_snoc {A} (f : A -> bool) (l : list A) (x : A) :
  f x = true -> List.filter f (l ++ [x]) = List.filter f l ++ [x].
Proof.
  intros H. induction l as [| y l IH]; cbn [app List.filter]; [rewrite H; reflexivity |].
  rewrite IH. destruct (f y); reflexivity.
Qed.

(** X7. The name of the repository is the last component of its root: for a
    directory [dir] and a name that holds no slash, is not empty and is not a
    single dot, the root [dir/name] is named [name]. *)
Theorem repo_name_last_component (dir name : pystr) :
  Forall (fun c => c <> 47) name -> name <> [] -> name <> lit "." ->
  _repo_name (mkPath (dir ++ [47] ++ name)) = name.
Proof.
  intros Hn Hne Hdot. unfold _repo_name, path_name, mkPath. cbn [snd app].
  destruct (split_on_last 47 dir name Hn) as (first & front & ->).
  change (first :: front ++ [name]) with ((first :: front) ++ [name]).
  rewrite filter_snoc.
  - apply last_last.
  - unfold is_part. apply andb_true_iff. split; [apply nonempty_true; exact Hne |].
    apply negb_true_iff. unfold Json.eqb_pystr. apply bool_decide_eq_false_2. exact Hdot.
Qed.

Lemma repo_name_last_component_witness :
  _repo_name (mkPath (lit "/home/dev" ++ [47] ++ lit "EscapeBudget")) = lit "EscapeBudget".
Proof.
  apply repo_name_last_component.
  - repeat (constructor; [intros H; discriminate H |]); constructor.
  - intros H; discriminate H.
  - intros H; discriminate H.
Defined.

(** ** The checkpoint *)

(** X8. A checkpoint that loads is never blank and has no surrounding
    whitespace. *)
Theorem loaded_checkpoint_trimmed (fs : gmap Path node) (repo_root : Path) (v : pystr) :
  _load_last_sha fs repo_root = Ok (Some v) -> v <> [] /\ strip v = v.
Proof.
  intros H. split; [exact (load_last_sha_truthy _ _ _ H) |].
  revert H. unfold _load_last_sha. do 2 case_bind.
  destruct a0; try discriminate.
  destruct (nonempty (strip s)); [| discriminate].
  intros [= <-]. apply strip_idem.
Qed.

Lemma loaded_checkpoint_trimmed_witness :
  lit "3333333cccc" <> [] /\ strip (lit "3333333cccc") = lit "3333333cccc".
Proof.
  apply (loaded_checkpoint_trimmed Sample.fs_state Sample.repo_root).
  vm_compute. reflexivity.
Defined.

(** ** The configuration *)



Lemma Ok_inj {A} (a b : A) : Ok a = Ok b -> a = b.
Proof. congruence. Qed.

Lemma load_config_dict (rt : Runtime) (fs : gmap Path node) (repo_root : Path)
  (d : list (pystr * pyval)) :
  first_config fs (config_paths repo_root) = Ok (PDict d) ->
  _load_config rt fs repo_root
  = bind (py_int rt (dict_get d (lit "max_commits") (PInt 20)))
      (fun mc =>
         bind (py_int rt (dict_get d (lit "max_files") (PInt 50)))
           (fun mf =>
              Ok {| obsidian_note_path := dict_get d (lit "obsidian_note_path") PNone;
                    project_name := dict_get d (lit "project_name") PNone;
                    base_ref := py_str rt (py_or rt (dict_get d (lit "base_ref") PNone)
                                             (PStr (lit "origin/main")));
                    include_diffstat := truthy rt (dict_get d (lit "include_diffstat")
                                                     (PBool true));
                    max_commits := mc;
                    max_files := mf |})).
Proof. intros H. unfold _load_config. rewrite H. reflexivity. Qed.

(** X9. The keys of the configuration are read one by one: a missing
    [max_commits], [max_files] or [include_diffstat] takes its default (20, 50,
    true) and an integer bound is used as given; a [base_ref] that is missing
    or falsy (null, an empty string, zero, false) gives origin/main, and a
    non-empty string is used as given. *)
Theorem config_keys_and_defaults (rt : Runtime) (fs : gmap Path node)
  (repo_root : Path) (d : list (pystr * pyval)) (cfg : Config) :
  first_config fs (config_paths repo_root) = Ok (PDict d) ->
  _load_config rt fs repo_root = Ok cfg ->
  (Json.dict_lookup d (lit "max_commits") = None -> max_commits cfg = 20%Z)
  /\ (forall n, Json.dict_lookup d (lit "max_commits") = Some (PInt n) ->
        max_commits cfg = n)
  /\ (Json.dict_lookup d (lit "max_files") = None -> max_files cfg = 50%Z)
  /\ (forall n, Json.dict_lookup d (lit "max_files") = Some (PInt n) ->
        max_files cfg = n)
  /\ (Json.dict_lookup d (lit "include_diffstat") = None -> include_diffstat cfg = true)
  /\ (forall b, Json.dict_lookup d (lit "include_diffstat") = Some (PBool b) ->
        include_diffstat cfg = b)
  /\ (Json.dict_lookup d (lit "base_ref") = None -> base_ref cfg = lit "origin/main")
  /\ (forall v, Json.dict_lookup d (lit "base_ref") = Some v -> truthy rt v = false ->
        base_ref cfg = lit "origin/main")
  /\ (forall s, Json.dict_lookup d (lit "base_ref") = Some (PStr s) -> s <> [] ->
        base_ref cfg = s).
Proof.
  intros Hraw Hload. rewrite (load_config_dict rt fs repo_root d Hraw) in Hload.
  destruct (py_int rt (dict_get d (lit "max_commits") (PInt 20))) as [mc |] eqn:Hmc;
    cbv beta iota delta [bind] in Hload; [| discriminate].
  destruct (py_int rt (dict_get d (lit "max_files") (PInt 50))) as [mf |] eqn:Hmf;
    cbv beta iota delta [bind] in Hload; [| discriminate].
  apply Ok_inj in Hload. subst cfg.
  cbv beta iota delta [max_commits max_files include_diffstat base_ref].
  unfold dict_get in *.
  repeat split.
  - intros H. rewrite H in Hmc. injection Hmc as <-. reflexivity.
  - intros n H. rewrite H in Hmc. injection Hmc as <-. reflexivity.
  - intros H. rewrite H in Hmf. injection Hmf as <-. reflexivity.
  - intros n H. rewrite H in Hmf. injection Hmf as <-. reflexivity.
  - intros ->. reflexivity.
  - intros b ->. reflexivity.
  - intros ->. reflexivity.
  - intros v -> Hv. unfold py_or. rewrite Hv. reflexivity.
  - intros s -> Hs. unfold py_or. cbn [truthy].
    apply nonempty_true in Hs. rewrite Hs. reflexivity.
Qed.

(** X10. An ill-typed configuration makes the load raise: a file whose JSON
    value is not an object raises AttributeError, and a [max_commits] (or,
    when [max_commits] is absent, a [max_files]) that is null, a list or an
    object raises TypeError. *)
Theorem config_ill_typed_raises (rt : Runtime) (fs : gmap Path node)
  (repo_root : Path) :
  (forall v, first_config fs (config_paths repo_root) = Ok v ->
     (forall d, v <> PDict d) ->
     _load_config rt fs repo_root = Raise AttributeError)
  /\ (forall d v, first_config fs (config_paths repo_root) = Ok (PDict d) ->
        Json.dict_lookup d (lit "max_commits") = Some v -> not_a_number v ->
        _load_config rt fs repo_root = Raise TypeError)
  /\ (forall d v, first_config fs (config_paths repo_root) = Ok (PDict d) ->
        Json.dict_lookup d (lit "max_commits") = None ->
        Json.dict_lookup d (lit "max_files") = Some v -> not_a_number v ->
        _load_config rt fs repo_root = Raise TypeError).
Proof.
  repeat split.
  - intros v Hraw Hnd. unfold _load_config. rewrite Hraw. cbn [bind].
    destruct v; try reflexivity. exfalso. exact (Hnd _ eq_refl).
  - intros d v Hraw Hl Hv. rewrite (load_config_dict rt fs repo_root d Hraw).
    unfold dict_get. rewrite Hl.
    destruct Hv as [-> | [[l ->] | [l ->]]]; reflexivity.
  - intros d v Hraw Hc Hl Hv. rewrite (load_config_dict rt fs repo_root d Hraw).
    unfold dict_get. rewrite Hc, Hl. cbn [py_int bind].
    destruct Hv as [-> | [[l ->] | [l ->]]]; reflexivity.
Qed.

Lemma read_json_same (fs fs' : gmap Path node) (p : Path) :
  fs !! p = fs' !! p -> _read_json fs p = _read_json fs' p.
Proof. intros H. unfold _read_json, read_text. rewrite H. reflexivity. Qed.

(** X11. When the configuration file under [.codex] exists, it alone decides
    the configuration: the dotfile at the root of the repository is not
    read, whatever it holds. *)
Theorem config_codex_file_shadows (rt : Runtime) (fs fs' : gmap Path node)
  (repo_root : Path) (n : node) :
  fs !! joinpath (joinpath repo_root (lit ".codex")) (lit "obsidian-change-summary.json")
    = Some n ->
  fs' !! joinpath (joinpath repo_root (lit ".codex")) (lit "obsidian-change-summary.json")
    = Some n ->
  _load_config rt fs repo_root = _load_config rt fs' repo_root.
Proof.
  intros H H'. unfold _load_config.
  cbn [config_paths first_config]. unfold path_exists. rewrite H, H'.
  rewrite (read_json_same fs fs'); [reflexivity |]. rewrite H, H'. reflexivity.
Qed.

Lemma config_keys_and_defaults_witness :
  max_commits
    {| obsidian_note_path := PNone; project_name := PNone;
       base_ref := lit "origin/main"; include_diffstat := false;
       max_commits := 20; max_files := 3 |} = 20%Z
  /\ max_files
       {| obsidian_note_path := PNone; project_name := PNone;
          base_ref := lit "origin/main"; include_diffstat := false;
          max_commits := 20; max_files := 3 |} = 3%Z.
Proof.
  pose proof (config_keys_and_defaults Sample.rt Sample.fs_config_partial
                Sample.repo_root
                [(lit "max_files", PInt 3); (lit "include_diffstat", PBool false)]
                {| obsidian_note_path := PNone; project_name := PNone;
                   base_ref := lit "origin/main"; include_diffstat := false;
                   max_commits := 20; max_files := 3 |}) as H.
  destruct H as (H1 & _ & _ & H4 & _).
  - vm_compute. reflexivity.
  - vm_compute. reflexivity.
  - split; [apply H1; reflexivity | apply (H4 3%Z); reflexivity].
Defined.

Lemma config_ill_typed_raises_witness :
  _load_config Sample.rt Sample.fs_config_null Sample.repo_root = Raise TypeError.
Proof.
  apply (proj1 (proj2 (config_ill_typed_raises Sample.rt Sample.fs_config_null
                         Sample.repo_root))
           [(lit "max_commits", PNone)] PNone).
  - vm_compute. reflexivity.
  - reflexivity.
  - left. reflexivity.
Defined.

Lemma config_codex_file_shadows_witness :
  _load_config Sample.rt Sample.fs_codex_config Sample.repo_root
  = _load_config Sample.rt
      (<[joinpath Sample.repo_root (lit ".obsidian-change-summary.json") := Text (lit "{")]>
         Sample.fs_codex_config)
      Sample.repo_root.
Proof.
  apply (config_codex_file_shadows Sample.rt Sample.fs_codex_config _ Sample.repo_root
           (Text (lit "{}"))).
  - reflexivity.
  - vm_compute. reflexivity.
Defined.

(** ** The destination and the start of the range *)

Lemma truthy_of_opt (rt : Runtime) (o : option pystr) :
  truthy rt (of_opt o) = opt_truthy o.
Proof. destruct o; reflexivity. Qed.

(** X12. The destination is resolved in priority order: a non-empty [--note]
    is used whatever the configuration and the environment hold; without it,
    a truthy [obsidian_note_path] of the configuration is used; otherwise the
    environment variable decides. *)
Theorem main_note_precedence (rt : Runtime) (env : Env) (args : Args) (cfg : Config) :
  (forall s, note args = Some s -> s <> [] -> main_note rt env args cfg = PStr s)
  /\ (opt_truthy (note args) = false -> truthy rt (obsidian_note_path cfg) = true ->
      main_note rt env args cfg = obsidian_note_path cfg)
  /\ (opt_truthy (note args) = false -> truthy rt (obsidian_note_path cfg) = false ->
      main_note rt env args cfg = of_opt (env_note_path env)).
Proof.
  unfold main_note, py_or. repeat split.
  - intros s -> Hs. apply nonempty_true in Hs. cbn [of_opt truthy]. rewrite Hs.
    cbn [truthy]. rewrite Hs. reflexivity.
  - intros Hn Hc. rewrite truthy_of_opt, Hn, Hc. reflexivity.
  - intros Hn Hc. rewrite truthy_of_opt, Hn, Hc. reflexivity.
Qed.

Lemma main_note_precedence_witness :
  main_note Sample.rt Sample.env_clean Sample.args_note Sample.cfg_default
  = PStr (lit "/home/dev/vault/log.md").
Proof.
  apply (proj1 (main_note_precedence Sample.rt Sample.env_clean Sample.args_note
                  Sample.cfg_default) (lit "/home/dev/vault/log.md")).
  - reflexivity.
  - intros H; discriminate H.
Defined.

(** X13. With [--since] or [--no-state] the state file is not consulted: the
    start of the range is the same whatever the file system holds, so a state
    file that cannot be decoded does not get in the way. *)
Theorem start_sha_ignores_state (env : Env) (args : Args) (cfg : Config)
  (fs fs' : gmap Path node) (repo_root : Path) :
  opt_truthy (since args) = true \/ no_state args = true ->
  main_start_sha env args cfg fs repo_root = main_start_sha env args cfg fs' repo_root.
Proof.
  intros [H | H]; unfold main_start_sha; rewrite H; [reflexivity |].
  destruct (opt_truthy (since args)); reflexivity.
Qed.

Lemma start_sha_ignores_state_witness :
  main_start_sha Sample.env_clean Sample.args_since Sample.cfg_default
    Sample.fs_bad_state Sample.repo_root
  = main_start_sha Sample.env_clean Sample.args_since Sample.cfg_default
      Sample.fs_empty Sample.repo_root.
Proof.
  apply start_sha_ignores_state. left. reflexivity.
Defined.

(** ** The diffstat *)

Lemma main_gather_diffstat (env : Env) (args : Args) (cfg : Config)
  (fs : gmap Path node) (repo_root : Path) (g : Gathered) :
  main_gather env args cfg fs repo_root = Ok g ->
  g_diffstat g
  = if include_diffstat cfg && negb (no_diffstat args)
    then match _git_shortstat env repo_root (g_start_sha g) (g_end_sha g) with
         | Ok d => if nonempty d then Some d else None
         | Raise _ => None
         end
    else None.
Proof.
  unfold main_gather. do 4 case_bind.
  destruct (include_diffstat cfg && negb (no_diffstat args)).
  - destruct (_git_shortstat env repo_root a0 a) as [d |] eqn:Hd; cbn [bind];
      [| discriminate].
    case_bind. intros H. apply Ok_inj in H. subst g.
    cbv beta iota delta [g_start_sha g_end_sha g_diffstat]. rewrite Hd. reflexivity.
  - cbn [bind]. case_bind. intros H. apply Ok_inj in H. subst g. reflexivity.
Qed.

(** X14. The Stats block depends on both switches: with [--no-diffstat], or
    with [include_diffstat] false in the configuration, the entry [main]
    formats has no Stats block; when there is one, it holds the non-empty
    diffstat of the range between its fences. *)
Theorem stats_block_only_when_enabled (env : Env) (args : Args) (cfg : Config)
  (fs : gmap Path node) (repo_root : Path) (g : Gathered) :
  main_gather env args cfg fs repo_root = Ok g ->
  (no_diffstat args = true \/ include_diffstat cfg = false ->
   stats_lines (g_diffstat g) = [])
  /\ (stats_lines (g_diffstat g) <> [] ->
      exists d,
        _git_shortstat env repo_root (g_start_sha g) (g_end_sha g) = Ok d
        /\ d <> []
        /\ stats_lines (g_diffstat g) = [stats_heading; lit "```"; d; lit "```"; []]).
Proof.
  intros Hg. rewrite (main_gather_diffstat _ _ _ _ _ _ Hg). split.
  - intros [-> | ->]; [rewrite andb_false_r |]; reflexivity.
  - destruct (include_diffstat cfg && negb (no_diffstat args)); [| intros H; contradiction].
    destruct (_git_shortstat env repo_root (g_start_sha g) (g_end_sha g)) as [d |];
      [| intros H; contradiction].
    destruct (nonempty d) eqn:Hd; [| intros H; contradiction].
    intros _. exists d. split; [reflexivity |].
    split; [apply nonempty_true; exact Hd |].
    unfold stats_lines. rewrite Hd. reflexivity.
Qed.



Lemma stats_block_only_when_enabled_witness :
  exists d,
    _git_shortstat Sample.env_one_commit Sample.repo_root
      (g_start_sha Sample.gathered_one_commit) (g_end_sha Sample.gathered_one_commit) = Ok d
    /\ d <> []
    /\ stats_lines (g_diffstat Sample.gathered_one_commit)
       = [stats_heading; lit "```"; d; lit "```"; []].
Proof.
  apply (proj2 (stats_block_only_when_enabled Sample.env_one_commit Sample.args_dry
                  Sample.cfg_default Sample.fs_empty Sample.repo_root
                  Sample.gathered_one_commit ltac:(vm_compute; reflexivity))).
  intros H. discriminate H.
Defined.

(** ** The appender and the checkpoint writer *)

(** X15. A successful append changes the note and nothing else: the note ends
    with the entry, every other path is as before.  A note that cannot be read
    makes the append raise the read error instead. *)
Theorem append_changes_only_the_note (fs : gmap Path node) (note_path : Path)
  (entry : pystr) :
  (forall fs', _append_to_note fs note_path entry = Ok fs' ->
     (exists before, fs' !! note_path = Some (Text (before ++ entry)))
     /\ (forall q, q <> note_path -> fs' !! q = fs !! q))
  /\ (forall e, fs !! note_path = Some (Unreadable e) ->
        _append_to_note fs note_path entry = Raise e).
Proof.
  unfold _append_to_note, _ensure_parent_dir, path_exists, read_text, write_text.
  split.
  - intros fs'. destruct (fs !! note_path) as [[existing | e] |] eqn:Hn; cbn [bind].
    + intros H. apply Ok_inj in H. subst fs'. split.
      * eexists. rewrite lookup_insert_eq, app_assoc. reflexivity.
      * intros q Hq. apply lookup_insert_ne. congruence.
    + discriminate.
    + intros H. apply Ok_inj in H. subst fs'. split.
      * exists []. rewrite lookup_insert_eq. reflexivity.
      * intros q Hq. apply lookup_insert_ne. congruence.
  - intros e ->. reflexivity.
Qed.

Lemma append_frame (fs fs' : gmap Path node) (note_path : Path) (entry : pystr) (q : Path) :
  _append_to_note fs note_path entry = Ok fs' -> q <> note_path -> fs' !! q = fs !! q.
Proof.
  unfold _append_to_note, _ensure_parent_dir, path_exists, read_text, write_text.
  destruct (fs !! note_path) as [[existing | e] |]; cbn [bind]; try discriminate;
    intros H Hq; apply Ok_inj in H; subst fs'; apply lookup_insert_ne; congruence.
Qed.

Lemma write_last_sha_frame (rt : Runtime) (fs : gmap Path node) (repo_root : Path)
  (sha : pystr) (q : Path) :
  q <> _state_path repo_root -> _write_last_sha rt fs repo_root sha !! q = fs !! q.
Proof.
  intros Hq. unfold _write_last_sha, _write_json, write_text, _ensure_parent_dir.
  apply lookup_insert_ne. congruence.
Qed.

(** ** The effects of [main] *)

Lemma main_unfold (rt : Runtime) (env : Env) (args : Args) (w : World)
  (repo_root : Path) (cfg : Config) :
  _repo_root env (env_cwd env) = Ok repo_root ->
  _load_config rt (fs w) repo_root = Ok cfg ->
  main rt env args w
  = if negb (truthy rt (main_note rt env args cfg)) && negb (dry_run args)
    then (Exit 2, eprint w missing_note_message)
    else match main_gather env args cfg (fs w) repo_root with
         | Ok g => main_report rt env args cfg repo_root (main_note rt env args cfg) g w
         | Raise e => (Uncaught e, w)
         end.
Proof. intros Hr Hc. unfold main. rewrite Hr, Hc. reflexivity. Qed.

(** The shapes [main_report] can return. *)
Lemma main_report_cases (rt : Runtime) (env : Env) (args : Args) (cfg : Config)
  (repo_root : Path) (note : pyval) (g : Gathered) (w : World) :
  (exists e, main_report rt env args cfg repo_root note g w = (Uncaught e, w))
  \/ (exists text,
        (dry_run args = true \/ no_state args = true \/ truthy rt note = false)
        /\ main_report rt env args cfg repo_root note g w
           = (Exit 0, {| fs := fs w; stdout := stdout w ++ text; stderr := stderr w |}))
  \/ (exists text,
        dry_run args = false /\ no_state args = false
        /\ main_report rt env args cfg repo_root note g w
           = (Exit 0, {| fs := _write_last_sha rt (fs w) repo_root (g_end_sha g);
                         stdout := stdout w ++ text; stderr := stderr w |}))
  \/ (exists text path fs1,
        dry_run args = false /\ note = PStr path
        /\ _append_to_note (fs w) (env_expanduser env (mkPath path))
             (main_entry rt env cfg repo_root
                (match _branch_name env repo_root with Ok b => b | Raise _ => [] end) g)
           = Ok fs1
        /\ main_report rt env args cfg repo_root note g w
           = (Exit 0, {| fs := if no_state args then fs1
                               else _write_last_sha rt fs1 repo_root (g_end_sha g);
                         stdout := stdout w ++ text; stderr := stderr w |})).
Proof.
  unfold main_report.
  destruct (is_empty (g_commits g) && is_empty (g_files g)
            && negb (wt_truthy (g_working_tree g))).
  - destruct (no_state args) eqn:Hs;
      [right; left; eexists; split; [right; left; reflexivity | reflexivity] |].
    destruct (dry_run args) eqn:Hd;
      [right; left; eexists; split; [left; reflexivity | reflexivity] |].
    right; right; left. eexists. repeat split.
  - destruct (_branch_name env repo_root) as [branch | e]; [| left; eexists; reflexivity].
    destruct (dry_run args) eqn:Hd;
      [right; left; eexists; split; [left; reflexivity | reflexivity] |].
    destruct (truthy rt note) eqn:Ht;
      [| right; left; eexists; split; [right; right; reflexivity | reflexivity]].
    cbn [orb negb].
    destruct note; try (left; eexists; reflexivity).
    destruct (_append_to_note (fs w) (env_expanduser env (mkPath s))
                (main_entry rt env cfg repo_root branch g)) as [fs1 | e] eqn:Ha;
      [| left; eexists; reflexivity].
    right; right; right. exists (lit "Appended change summary to: " ++ s ++ [LF]), s, fs1.
    split; [reflexivity |]. split; [reflexivity |]. split; [exact Ha |].
    destruct (no_state args); reflexivity.
Qed.

(** The shapes [main] can return. *)
Lemma main_cases (rt : Runtime) (env : Env) (args : Args) (w : World) :
  (exists e, main rt env args w = (Uncaught e, w))
  \/ (exists repo_root cfg,
        _repo_root env (env_cwd env) = Ok repo_root
        /\ _load_config rt (fs w) repo_root = Ok cfg
        /\ truthy rt (main_note rt env args cfg) = false
        /\ dry_run args = false
        /\ main rt env args w = (Exit 2, eprint w missing_note_message))
  \/ (exists text,
        (dry_run args = true \/ no_state args = true)
        /\ main rt env args w
           = (Exit 0, {| fs := fs w; stdout := stdout w ++ text; stderr := stderr w |}))
  \/ (exists repo_root cfg g text,
        _repo_root env (env_cwd env) = Ok repo_root
        /\ _load_config rt (fs w) repo_root = Ok cfg
        /\ main_gather env args cfg (fs w) repo_root = Ok g
        /\ dry_run args = false /\ no_state args = false
        /\ main rt env args w
           = (Exit 0, {| fs := _write_last_sha rt (fs w) repo_root (g_end_sha g);
                         stdout := stdout w ++ text; stderr := stderr w |}))
  \/ (exists repo_root cfg g text path fs1,
        _repo_root env (env_cwd env) = Ok repo_root
        /\ _load_config rt (fs w) repo_root = Ok cfg
        /\ main_gather env args cfg (fs w) repo_root = Ok g
        /\ dry_run args = false
        /\ main_note rt env args cfg = PStr path
        /\ (forall q, q <> env_expanduser env (mkPath path) -> fs1 !! q = fs w !! q)
        /\ main rt env args w
           = (Exit 0, {| fs := if no_state args then fs1
                               else _write_last_sha rt fs1 repo_root (g_end_sha g);
                         stdout := stdout w ++ text; stderr := stderr w |})).
Proof.
  destruct (_repo_root env (env_cwd env)) as [repo_root | e] eqn:Hr.
  2: { left. exists e. unfold main. rewrite Hr. reflexivity. }
  destruct (_load_config rt (fs w) repo_root) as [cfg | e] eqn:Hc.
  2: { left. exists e. unfold main. rewrite Hr, Hc. reflexivity. }
  rewrite (main_unfold rt env args w repo_root cfg Hr Hc).
  destruct (negb (truthy rt (main_note rt env args cfg)) && negb (dry_run args)) eqn:Hgate.
  { apply andb_true_iff in Hgate as [Hn Hd]. apply negb_true_iff in Hn, Hd.
    right; left. exists repo_root, cfg. repeat split; assumption. }
  destruct (main_gather env args cfg (fs w) repo_root) as [g | e] eqn:Hg.
  2: { left. exists e. reflexivity. }
  destruct (main_report_cases rt env args cfg repo_root (main_note rt env args cfg) g w)
    as [[e H] | [(text & Hc3 & H) | [(text & Hd & Hs & H)
       | (text & path & fs1 & Hd & Hn & Ha & H)]]];
    rewrite H.
  - left. exists e. reflexivity.
  - right; right; left. exists text. split; [| reflexivity].
    destruct Hc3 as [Hd | [Hs | Hn]]; [left; exact Hd | right; exact Hs |].
    rewrite Hn in Hgate. cbn [negb andb] in Hgate.
    apply negb_false_iff in Hgate. left. exact Hgate.
  - right; right; right; left. exists repo_root, cfg, g, text.
    split; [reflexivity |]. split; [exact Hc |]. split; [exact Hg |].
    split; [exact Hd |]. split; [exact Hs | reflexivity].
  - right; right; right; right. exists repo_root, cfg, g, text, path, fs1.
    split; [reflexivity |]. split; [exact Hc |]. split; [exact Hg |].
    split; [exact Hd |]. split; [exact Hn |].
    split; [| reflexivity].
    intros q Hq. exact (append_frame _ _ _ _ _ Ha Hq).
Qed.


(** X17. A dry run writes no file and prints nothing to the error stream; when
    it returns, it returns 0. *)
Theorem main_dry_run_writes_nothing (rt : Runtime) (env : Env) (args : Args)
  (w : World) :
  dry_run args = true ->
  fs (snd (main rt env args w)) = fs w
  /\ stderr (snd (main rt env args w)) = stderr w
  /\ (forall code, fst (main rt env args w) = Exit code -> code = 0%Z).
Proof.
  intros Hdry.
  destruct (main_cases rt env args w)
    as [[e' H] | [(r & c & _ & _ & _ & Hd & H) | [(t & _ & H) | [(r & c & g & t & _ & _ & _ & Hd & _ & H)
       | (r & c & g & t & p & f & _ & _ & _ & Hd & _ & _ & H)]]]];
    try congruence; rewrite H; cbn [fst snd fs stderr];
    (split; [reflexivity |]; split; [reflexivity |]; intros code Hc; congruence).
Qed.

(** X18. [main] can change at most two files, and none in a dry run: the state
    file, only when state is enabled, and the note, at the expanded path of
    the resolved destination. *)
Theorem main_changes_only_state_and_note (rt : Runtime) (env : Env) (args : Args)
  (w : World) (p : Path) :
  fs (snd (main rt env args w)) !! p <> fs w !! p ->
  dry_run args = false
  /\ exists repo_root cfg,
       _repo_root env (env_cwd env) = Ok repo_root
       /\ _load_config rt (fs w) repo_root = Ok cfg
       /\ ((p = _state_path repo_root /\ no_state args = false)
           \/ (exists path, main_note rt env args cfg = PStr path
                            /\ p = env_expanduser env (mkPath path))).
Proof.
  destruct (main_cases rt env args w)
    as [[e' H] | [(r & c & _ & _ & _ & _ & H) | [(t & _ & H)
       | [(r & c & g & t & Hr & Hc & _ & Hd & Hs & H)
       | (r & c & g & t & path & f & Hr & Hc & _ & Hd & Hn & Hf & H)]]]];
    rewrite H; cbn [snd fs]; intros Hp; try (exfalso; apply Hp; reflexivity).
  - split; [exact Hd |]. exists r, c. split; [exact Hr |]. split; [exact Hc |].
    left. split; [| exact Hs].
    destruct (decide (p = _state_path r)) as [-> | Hne]; [reflexivity |].
    exfalso. apply Hp. apply write_last_sha_frame. exact Hne.
  - split; [exact Hd |]. exists r, c. split; [exact Hr |]. split; [exact Hc |].
    destruct (decide (p = env_expanduser env (mkPath path))) as [-> | Hne].
    + right. exists path. split; [exact Hn | reflexivity].
    + left. destruct (no_state args) eqn:Hs.
      * exfalso. apply Hp. apply Hf. exact Hne.
      * split; [| reflexivity].
        destruct (decide (p = _state_path r)) as [-> | Hne2]; [reflexivity |].
        exfalso. apply Hp. rewrite write_last_sha_frame by exact Hne2.
        apply Hf. exact Hne.
Qed.


Lemma changes_present (g : Gathered) :
  g_commits g <> [] \/ g_files g <> [] \/ wt_truthy (g_working_tree g) = true ->
  is_empty (g_commits g) && is_empty (g_files g) && negb (wt_truthy (g_working_tree g))
  = false.
Proof.
  intros [H | [H | H]].
  - destruct (g_commits g); [contradiction | reflexivity].
  - destruct (g_files g); [contradiction |]. rewrite andb_false_r. reflexivity.
  - rewrite H. apply andb_false_r.
Qed.


(** X21. In a dry run with something to report, [main] prints the entry, and
    only the entry, to standard output, writes no file and returns 0. *)
Theorem main_dry_run_prints_entry (rt : Runtime) (env : Env) (args : Args)
  (w : World) (repo_root : Path) (cfg : Config) (g : Gathered) (branch : pystr) :
  _repo_root env (env_cwd env) = Ok repo_root ->
  _load_config rt (fs w) repo_root = Ok cfg ->
  dry_run args = true ->
  main_gather env args cfg (fs w) repo_root = Ok g ->
  g_commits g <> [] \/ g_files g <> [] \/ wt_truthy (g_working_tree g) = true ->
  _branch_name env repo_root = Ok branch ->
  main rt env args w
  = (Exit 0,
     {| fs := fs w;
        stdout := stdout w ++ main_entry rt env cfg repo_root branch g;
        stderr := stderr w |}).
Proof.
  intros Hr Hc Hd Hg Hch Hb.
  rewrite (main_unfold rt env args w repo_root cfg Hr Hc), Hg, Hd.
  rewrite andb_false_r.
  unfold main_report. rewrite (changes_present g Hch), Hb, Hd. reflexivity.
Qed.

(** ** The checkpoint after a run *)

Lemma load_written_trimmed (rt : Runtime) (fs : gmap Path node) (repo_root : Path)
  (sha : pystr) :
  well_formed_text sha -> sha <> [] -> strip sha = sha ->
  _load_last_sha (_write_last_sha rt fs repo_root sha) repo_root = Ok (Some sha).
Proof.
  intros Hw Hne Hs. unfold _load_last_sha.
  rewrite (read_written_state rt fs repo_root sha Hw).
  cbn [bind py_get Json.dict_lookup].
  unfold Json.eqb_pystr. rewrite bool_decide_eq_true_2 by reflexivity.
  rewrite Hs. apply nonempty_true in Hne. rewrite Hne. reflexivity.
Qed.

Lemma head_sha_trimmed (env : Env) (cwd : Path) (s : pystr) :
  _head_sha env cwd = Ok s -> strip s = s.
Proof. apply stripped_query. Qed.

Lemma checkpoint_after_run (rt : Runtime) (env : Env) (args : Args) (w : World)
  (repo_root : Path) (head : pystr) :
  fst (main rt env args w) = Exit 0 ->
  no_state args = false ->
  dry_run args = false ->
  _repo_root env (env_cwd env) = Ok repo_root ->
  _head_sha env repo_root = Ok head ->
  well_formed_text head ->
  head <> [] ->
  _load_last_sha (fs (snd (main rt env args w))) repo_root = Ok (Some head).
Proof.
  intros Hexit Hs Hd Hr Hh Hw Hne.
  pose proof (head_sha_trimmed _ _ _ Hh) as Htrim.
  destruct (main_cases rt env args w)
    as [[e' H] | [(r & c & _ & _ & _ & _ & H) | [(t & Hc3 & H)
       | [(r & c & g & t & Hr' & _ & Hg & _ & _ & H)
       | (r & c & g & t & path & f & Hr' & _ & Hg & _ & _ & _ & H)]]]];
    rewrite H in Hexit |- *; cbn [fst snd fs] in *; try discriminate Hexit.
  - destruct Hc3; congruence.
  - rewrite Hr in Hr'. apply Ok_inj in Hr'. subst r.
    destruct (main_gather_inv _ _ _ _ _ _ Hg) as (Hh' & _).
    rewrite Hh in Hh'. apply Ok_inj in Hh'. rewrite <- Hh'.
    apply load_written_trimmed; assumption.
  - rewrite Hr in Hr'. apply Ok_inj in Hr'. subst r.
    destruct (main_gather_inv _ _ _ _ _ _ Hg) as (Hh' & _).
    rewrite Hh in Hh'. apply Ok_inj in Hh'. rewrite <- Hh', Hs.
    apply load_written_trimmed; assumption.
Qed.

(** X22. Checkpoint persistence: after an invocation that returns 0 with state
    enabled and no dry run, loading the checkpoint returns the HEAD of that
    run (a well-formed, non-empty identifier), whether the run appended an
    entry or found no changes. *)
Theorem checkpoint_is_head_after_run (rt : Runtime) (env : Env) (args : Args)
  (w : World) (repo_root : Path) (head : pystr) :
  fst (main rt env args w) = Exit 0 ->
  no_state args = false ->
  dry_run args = false ->
  _repo_root env (env_cwd env) = Ok repo_root ->
  _head_sha env repo_root = Ok head ->
  well_formed_text head ->
  head <> [] ->
  _load_last_sha (fs (snd (main rt env args w))) repo_root = Ok (Some head).
Proof. exact (checkpoint_after_run rt env args w repo_root head). Qed.

(** X23. Ranges chain: after such an invocation, the next one, run with state
    enabled and without [--since] on the files the first one left, starts its
    range at the HEAD of the first, whatever its base reference is. *)
Theorem next_run_starts_at_previous_head (rt : Runtime) (env : Env) (args : Args)
  (w : World) (repo_root : Path) (head : pystr)
  (env2 : Env) (args2 : Args) (cfg2 : Config) :
  fst (main rt env args w) = Exit 0 ->
  no_state args = false ->
  dry_run args = false ->
  _repo_root env (env_cwd env) = Ok repo_root ->
  _head_sha env repo_root = Ok head ->
  well_formed_text head ->
  head <> [] ->
  opt_truthy (since args2) = false ->
  no_state args2 = false ->
  main_start_sha env2 args2 cfg2 (fs (snd (main rt env args w))) repo_root = Ok head.
Proof.
  intros Hexit Hs Hd Hr Hh Hw Hne Hsince Hstate.
  unfold main_start_sha. rewrite Hsince, Hstate. cbn [negb].
  rewrite (checkpoint_after_run rt env args w repo_root head Hexit Hs Hd Hr Hh Hw Hne).
  cbn [bind opt_truthy]. apply nonempty_true in Hne. rewrite Hne. reflexivity.
Qed.


Lemma main_dry_run_writes_nothing_witness :
  fs (snd (main Sample.rt Sample.env_one_commit Sample.args_dry
             (Sample.world Sample.fs_state))) = fs (Sample.world Sample.fs_state)
  /\ stderr (snd (main Sample.rt Sample.env_one_commit Sample.args_dry
                    (Sample.world Sample.fs_state)))
     = stderr (Sample.world Sample.fs_state)
  /\ (forall code,
        fst (main Sample.rt Sample.env_one_commit Sample.args_dry
               (Sample.world Sample.fs_state)) = Exit code -> code = 0%Z).
Proof.
  apply main_dry_run_writes_nothing. reflexivity.
Defined.

Lemma main_changes_only_state_and_note_witness :
  dry_run Sample.args_note = false
  /\ exists repo_root cfg,
       _repo_root Sample.env_clean (env_cwd Sample.env_clean) = Ok repo_root
       /\ _load_config Sample.rt (fs (Sample.world Sample.fs_empty)) repo_root = Ok cfg
       /\ ((_state_path Sample.repo_root = _state_path repo_root
            /\ no_state Sample.args_note = false)
           \/ (exists path,
                 main_note Sample.rt Sample.env_clean Sample.args_note cfg = PStr path
                 /\ _state_path Sample.repo_root
                    = env_expanduser Sample.env_clean (mkPath path))).
Proof.
  apply (main_changes_only_state_and_note Sample.rt Sample.env_clean Sample.args_note
           (Sample.world Sample.fs_empty) (_state_path Sample.repo_root)).
  vm_compute. intros H. discriminate H.
Defined.



Lemma main_dry_run_prints_entry_witness :
  main Sample.rt Sample.env_one_commit Sample.args_dry (Sample.world Sample.fs_empty)
  = (Exit 0,
     {| fs := fs (Sample.world Sample.fs_empty);
        stdout := stdout (Sample.world Sample.fs_empty)
                  ++ main_entry Sample.rt Sample.env_one_commit Sample.cfg_default
                       Sample.repo_root (lit "main") Sample.gathered_one_commit;
        stderr := stderr (Sample.world Sample.fs_empty) |}).
Proof.
  apply (main_dry_run_prints_entry Sample.rt Sample.env_one_commit Sample.args_dry
           (Sample.world Sample.fs_empty) Sample.repo_root Sample.cfg_default
           Sample.gathered_one_commit (lit "main")).
  - vm_compute. reflexivity.
  - vm_compute. reflexivity.
  - reflexivity.
  - vm_compute. reflexivity.
  - left. intros H. discriminate H.
  - vm_compute. reflexivity.
Defined.

Lemma checkpoint_is_head_after_run_witness :
  _load_last_sha
    (fs (snd (main Sample.rt Sample.env_one_commit Sample.args_note
                (Sample.world Sample.fs_empty))))
    Sample.repo_root
  = Ok (Some Sample.head).
Proof.
  apply (checkpoint_is_head_after_run Sample.rt Sample.env_one_commit Sample.args_note
           (Sample.world Sample.fs_empty) Sample.repo_root Sample.head).
  - vm_compute. reflexivity.
  - reflexivity.
  - reflexivity.
  - vm_compute. reflexivity.
  - vm_compute. reflexivity.
  - reflexivity.
  - intros H. discriminate H.
Defined.

Lemma next_run_starts_at_previous_head_witness :
  main_start_sha Sample.env_clean Sample.args_note Sample.cfg_default
    (fs (snd (main Sample.rt Sample.env_one_commit Sample.args_note
                (Sample.world Sample.fs_empty))))
    Sample.repo_root
  = Ok Sample.head.
Proof.
  apply (next_run_starts_at_previous_head Sample.rt Sample.env_one_commit
           Sample.args_note (Sample.world Sample.fs_empty) Sample.repo_root Sample.head
           Sample.env_clean Sample.args_note Sample.cfg_default).
  - vm_compute. reflexivity.
  - reflexivity.
  - reflexivity.
  - vm_compute. reflexivity.
  - vm_compute. reflexivity.
  - reflexivity.
  - intros H. discriminate H.
  - reflexivity.
  - reflexivity.
Defined.

Lemma append_changes_only_the_note_witness :
  (exists before,
     (<[Sample.note_path := Text Sample.entry_plain]> Sample.fs_state) !! Sample.note_path
     = Some (Text (before ++ Sample.entry_plain)))
  /\ (forall q, q <> Sample.note_path ->
        (<[Sample.note_path := Text Sample.entry_plain]> Sample.fs_state) !! q
        = Sample.fs_state !! q).
Proof.
  apply (proj1 (append_changes_only_the_note Sample.fs_state Sample.note_path
                  Sample.entry_plain)).
  reflexivity.
Defined.

(** ** The state file *)

Lemma concat_escape_range (s : pystr) :
  Forall (fun x => 32 <= x <= 126) (concat (map Json.escape_char s)).
Proof.
  induction s as [| c s IH]; [constructor |].
  cbn [map concat]. apply Forall_app_2; [apply escape_char_range | exact IH].
Qed.

(** X24. The state file [_write_last_sha] writes is plain ASCII whatever the
    identifier holds: printable characters and line feeds only, ending in a
    line feed. *)
Theorem state_file_is_ascii (rt : Runtime) (fs : gmap Path node) (repo_root : Path)
  (sha : pystr) :
  exists text,
    _write_last_sha rt fs repo_root sha !! _state_path repo_root = Some (Text text)
    /\ Forall (fun c => c = LF \/ 32 <= c <= 126) text
    /\ endswith [LF] text = true.
Proof.
  exists (state_pre ++ concat (map Json.escape_char sha) ++ state_post).
  split; [| split].
  - unfold _write_last_sha, _write_json, write_text, _ensure_parent_dir.
    rewrite lookup_insert_eq, dumps_state. reflexivity.
  - change state_pre
      with [123; 10; 32; 32; 34; 108; 97; 115; 116; 95; 115; 104; 97; 34; 58; 32; 34].
    change state_post with [34; 10; 125; 10].
    unfold LF.
    apply Forall_app_2; [| apply Forall_app_2].
    + repeat (apply List.Forall_cons; [first [left; reflexivity | right; lia] |]).
      apply List.Forall_nil.
    + eapply Forall_impl; [apply concat_escape_range |]. intros x Hx. right. exact Hx.
    + repeat (apply List.Forall_cons; [first [left; reflexivity | right; lia] |]).
      apply List.Forall_nil.
  - change state_post with ([34; LF; 125] ++ [LF]).
    rewrite !app_assoc. apply endswith_lf_snoc.
Qed.

(** X25. Loading the checkpoint returns a value exactly when the state file
    decodes to an object whose [last_sha] is a string that is not blank; the
    value is that string without its surrounding whitespace, and other keys of
    the object are ignored. *)
Theorem load_last_sha_some_iff (fs : gmap Path node) (repo_root : Path) (v : pystr) :
  _load_last_sha fs repo_root = Ok (Some v)
  <-> exists d s,
        _read_json fs (_state_path repo_root) = Ok (PDict d)
        /\ Json.dict_lookup d (lit "last_sha") = Some (PStr s)
        /\ strip s = v
        /\ v <> [].
Proof.
  unfold _load_last_sha. split.
  - destruct (_read_json fs (_state_path repo_root)) as [raw |]; cbn [bind];
      [| discriminate].
    destruct raw; cbn [py_get bind]; try discriminate.
    destruct (Json.dict_lookup items (lit "last_sha")) as [sha |] eqn:Hl;
      [| discriminate].
    destruct sha; try discriminate.
    destruct (nonempty (strip s)) eqn:Hn; [| discriminate].
    intros H. apply Ok_inj in H. injection H as <-.
    exists items, s. split; [reflexivity |]. split; [exact Hl |].
    split; [reflexivity |]. apply nonempty_true. exact Hn.
  - intros (d & s & -> & Hl & <- & Hne). cbn [bind py_get]. rewrite Hl.
    apply nonempty_true in Hne. rewrite Hne. reflexivity.
Qed.

(** ** The header of an entry *)

Lemma rstrip_app_keep (a b : pystr) : rstrip b <> [] -> rstrip (a ++ b) = a ++ rstrip b.
Proof.
  intros Hb. induction a as [| x a IH]; [reflexivity |].
  cbn [app rstrip]. rewrite IH.
  destruct (a ++ rstrip b) eqn:Hab.
  - destruct a; [contradiction | discriminate].
  - rewrite andb_false_r. reflexivity.
Qed.

Lemma join_cons2 (sep p q : pystr) (ps : list pystr) :
  join sep (p :: q :: ps) = p ++ sep ++ join sep (q :: ps).
Proof. reflexivity. Qed.

(** X26. The header always comes out whole: every entry starts with the line
    [## time - title (branch)], a blank line, the repository line and the
    range line up to the two dots, where the title is the project name when
    one is configured and the directory name of the repository when the
    project name is missing or empty. *)
Theorem entry_header_intact (rt : Runtime) (when : datetime) (repo_root : Path)
  (project_name : pyval) (branch start_sha end_sha : pystr)
  (commits files : list pystr) (diffstat : option pystr)
  (working_tree : option (list pystr)) (max_commits max_files : Z) :
  (exists rest,
     _format_entry rt when repo_root project_name branch start_sha end_sha
       commits files diffstat working_tree max_commits max_files
     = (lit "## " ++ strftime_minutes rt when ++ [32; 8212; 32]
        ++ entry_title rt repo_root project_name ++ lit " (" ++ branch ++ lit ")")
       ++ [LF; LF]
       ++ (lit "- Repo: " ++ _repo_name repo_root) ++ [LF]
       ++ lit "- Range: " ++ _short_sha start_sha ++ lit ".." ++ rest)
  /\ (forall s, project_name = PStr s -> s <> [] ->
        entry_title rt repo_root project_name = s)
  /\ (project_name = PNone \/ project_name = PStr [] ->
      entry_title rt repo_root project_name = _repo_name repo_root).
Proof.
  split; [| split].
  - unfold _format_entry, entry_lines, header_lines.
    fold (entry_title rt repo_root project_name).
    remember (lit "## " ++ strftime_minutes rt when ++ [32; 8212; 32]
              ++ entry_title rt repo_root project_name ++ lit " (" ++ branch ++ lit ")")
      as line1 eqn:Hline1.
    cbn [app]. rewrite !join_cons2.
    remember (join [LF]
                ([] :: listing_lines commits_heading commits max_commits
                    ++ listing_lines files_heading files max_files
                    ++ stats_lines diffstat ++ working_tree_lines working_tree))
      as tail eqn:Htail.
    exists (rstrip (_short_sha end_sha ++ [LF] ++ tail) ++ [LF]).
    assert (Hdots : forall x, rstrip (lit ".." ++ x) = lit ".." ++ rstrip x).
    { intros x. change (lit ".." ++ x) with (46 :: 46 :: x).
      rewrite !rstrip_cons_nonspace by reflexivity. reflexivity. }
    match goal with
    | |- context [rstrip ?t] =>
        replace t
          with ((line1 ++ [LF; LF] ++ (lit "- Repo: " ++ _repo_name repo_root) ++ [LF]
                 ++ lit "- Range: " ++ _short_sha start_sha)
                ++ lit ".." ++ (_short_sha end_sha ++ [LF] ++ tail))
    end.
    2: { rewrite Htail. cbn [app].
         repeat first [rewrite <- app_assoc | rewrite <- app_comm_cons].
         reflexivity. }
    rewrite rstrip_app_keep, Hdots by (rewrite Hdots; discriminate).
    repeat first [rewrite <- app_assoc | rewrite <- app_comm_cons]. reflexivity.
  - intros s -> Hs. unfold entry_title, py_or. cbn [truthy].
    apply nonempty_true in Hs. rewrite Hs. reflexivity.
  - intros [-> | ->]; reflexivity.
Qed.

Lemma entry_header_intact_witness :
  entry_title Sample.rt Sample.repo_root (PStr (lit "Budget")) = lit "Budget".
Proof.
  apply (proj1 (proj2 (entry_header_intact Sample.rt Sample.when Sample.repo_root
                         (PStr (lit "Budget")) (lit "main") (lit "1111111aaaa")
                         (lit "2222222bbbb") [] [] None None 20 50)) (lit "Budget")).
  - reflexivity.
  - intros H. discriminate H.
Defined.

(** ** A destination that is not a string *)

(** X27. A destination that is truthy but not a string (a number or a list in
    the configuration) is found out only when the note is about to be written:
    with something to report and no dry run, [main] ends in a TypeError after
    all queries, and nothing is written or printed. *)
Theorem main_non_string_note_raises (rt : Runtime) (env : Env) (args : Args)
  (w : World) (repo_root : Path) (cfg : Config) (g : Gathered) (branch : pystr) :
  _repo_root env (env_cwd env) = Ok repo_root ->
  _load_config rt (fs w) repo_root = Ok cfg ->
  truthy rt (main_note rt env args cfg) = true ->
  (forall s, main_note rt env args cfg <> PStr s) ->
  dry_run args = false ->
  main_gather env args cfg (fs w) repo_root = Ok g ->
  g_commits g <> [] \/ g_files g <> [] \/ wt_truthy (g_working_tree g) = true ->
  _branch_name env repo_root = Ok branch ->
  main rt env args w = (Uncaught TypeError, w).
Proof.
  intros Hr Hc Ht Hns Hd Hg Hch Hb.
  rewrite (main_unfold rt env args w repo_root cfg Hr Hc), Ht, Hg.
  cbn [negb andb].
  unfold main_report. rewrite (changes_present g Hch), Hb, Hd, Ht. cbn [negb orb].
  destruct (main_note rt env args cfg); try reflexivity.
  exfalso. exact (Hns _ eq_refl).
Qed.



Lemma main_non_string_note_raises_witness :
  main Sample.rt Sample.env_one_commit Sample.args_default
    (Sample.world Sample.fs_config_number)
  = (Uncaught TypeError, Sample.world Sample.fs_config_number).
Proof.
  apply (main_non_string_note_raises Sample.rt Sample.env_one_commit Sample.args_default
           (Sample.world Sample.fs_config_number) Sample.repo_root Sample.cfg_number
           Sample.gathered_one_commit (lit "main")).
  - vm_compute. reflexivity.
  - vm_compute. reflexivity.
  - reflexivity.
  - intros s H. discriminate H.
  - reflexivity.
  - vm_compute. reflexivity.
  - left. intros H. discriminate H.
  - vm_compute. reflexivity.
Defined.
